(** * cortexd: system monitor, alert enrichment, IPC request parsing and
    rate limiting.

    A shallow embedding of [src/daemon/src/monitor/system_monitor.cpp]
    ([SystemMonitor::create_smart_alert], its background AI thread,
    [run_checks], [check_thresholds], [monitor_loop], [start]),
    of [src/daemon/src/ipc/protocol.cpp] ([Request::parse]) and of the
    [cortexd::RateLimiter] exercised by
    [src/daemon/tests/unit/test_rate_limiter.cpp].

    External collaborators (the alert store, the HTTP LLM client, the
    memory/disk/apt collectors, /proc/stat, the JSON parser) are modelled
    by the answers they give: each call site reads its answer from an
    explicit environment record, and calls with an observable side effect
    are appended to an event trace. *)

From Stdlib Require Import String List ZArith QArith Bool Lia.
Import ListNotations.

Open Scope string_scope.

(** ** Common data *)

(** [AlertSeverity] and [AlertType] of [cortexd/common.h]. *)
Inductive AlertSeverity := INFO | WARNING | ERROR | CRITICAL.

Inductive AlertType :=
| SYSTEM | APT_UPDATES | SECURITY_UPDATE | DISK_USAGE | MEMORY_USAGE
| CVE_FOUND | DEPENDENCY | LLM_ERROR | DAEMON_STATUS | AI_ANALYSIS.

Definition severity_eqb (a b : AlertSeverity) : bool :=
  match a, b with
  | INFO, INFO | WARNING, WARNING | ERROR, ERROR | CRITICAL, CRITICAL => true
  | _, _ => false
  end.

Definition alert_type_eqb (a b : AlertType) : bool :=
  match a, b with
  | SYSTEM, SYSTEM | APT_UPDATES, APT_UPDATES
  | SECURITY_UPDATE, SECURITY_UPDATE | DISK_USAGE, DISK_USAGE
  | MEMORY_USAGE, MEMORY_USAGE | CVE_FOUND, CVE_FOUND
  | DEPENDENCY, DEPENDENCY | LLM_ERROR, LLM_ERROR
  | DAEMON_STATUS, DAEMON_STATUS | AI_ANALYSIS, AI_ANALYSIS => true
  | _, _ => false
  end.

(** C++ exceptions: those derived from [std::exception] and the rest. *)
Inductive exn := StdException (what : string) | OtherException.

(** The answer of an external call: a value or a thrown exception. *)
Inductive outcome (A : Type) := Ok (a : A) | Throws (e : exn).
Arguments Ok {A} a.
Arguments Throws {A} e.

(** [std::map<std::string, std::string>] as an association list;
    [m[k] = v] replaces any previous binding of [k]. *)
Definition metadata := list (string * string).

Definition map_set (k v : string) (m : metadata) : metadata :=
  (k, v) :: filter (fun p => negb (String.eqb (fst p) k)) m.

(** Observable calls on the outside world. *)
Inductive event :=
| EvStoreCreate (sev : AlertSeverity) (ty : AlertType) (title msg : string)
    (meta : metadata)                          (** [alert_manager->create] *)
| EvLLMGenerate (prompt : string)              (** [http_llm_client_->generate] *)
| EvSpawn (parent_id : string)                 (** [std::thread ai_thread(...)] *)
| EvRunChecks                                  (** [run_checks()] *)
| EvSleep.                                     (** [sleep_for(1s)] *)

(** ** A state, exception and early-return monad

    [M S A] threads a state [S]; a computation ends normally with a
    value, by a [return;] out of the enclosing function body, or by a
    thrown exception. *)
Inductive exit (A : Type) := Normal (a : A) | Return | Raise (e : exn).
Arguments Normal {A} a.
Arguments Return {A}.
Arguments Raise {A} e.

Definition M (S A : Type) := S -> S * exit A.

Definition ret {S A} (a : A) : M S A := fun s => (s, Normal a).

Definition bind {S A B} (m : M S A) (k : A -> M S B) : M S B :=
  fun s =>
    match m s with
    | (s', Normal a) => k a s'
    | (s', Return) => (s', Return)
    | (s', Raise e) => (s', Raise e)
    end.

Notation "x <- m ;; k" := (bind m (fun x => k))
  (at level 61, m at next level, right associativity).
Notation "m ;;; k" := (bind m (fun _ => k))
  (at level 61, right associativity).

(** [return;] *)
Definition early_return {S A} : M S A := fun s => (s, Return).

(** [throw e] *)
Definition throw {S A} (e : exn) : M S A := fun s => (s, Raise e).

(** Lift the answer of an external call. *)
Definition of_outcome {S A} (o : outcome A) : M S A :=
  match o with Ok a => ret a | Throws e => throw e end.

(** [try { m } catch (const std::exception&) { log } catch (...) { log }]:
    both handlers only log, so every exception is absorbed. *)
Definition try_catch_all {S} (m : M S unit) : M S unit :=
  fun s =>
    match m s with
    | (s', Raise _) => (s', Normal tt)
    | r => r
    end.

(** [try { m } catch (const std::exception&) { log }]: only exceptions
    derived from [std::exception] are absorbed. *)
Definition try_catch_std {S} (m : M S unit) : M S unit :=
  fun s =>
    match m s with
    | (s', Raise (StdException _)) => (s', Normal tt)
    | r => r
    end.

(** A local object whose destructor runs [fin] on every way out of the
    scope: normal end, [return;] or exception unwinding. *)
Definition with_scope_guard {S A} (fin : S -> S) (m : M S A) : M S A :=
  fun s => let (s', r) := m s in (fin s', r).

(** ** The background AI analysis thread of [create_smart_alert] *)

(** What the outside world answers to one AI thread. *)
Record TaskEnv := {
  te_running : bool;          (** [running_ptr->load()] at thread start *)
  te_store_alive : bool;      (** [weak_alert_mgr.lock()] is non-null *)
  te_enable_ai_alerts : bool; (** [config.enable_ai_alerts] *)
  te_client_present : bool;   (** [http_llm_client_] is non-null *)
  te_client_configured : bool;(** [http_llm_client_->is_configured()] *)
  te_generate : outcome (bool * string * string);
                              (** [generate(...)]: success, output, error *)
  te_create : outcome string  (** [alert_mgr->create(...)] of the AI alert *)
}.

(** The state a thread touches: the shared [done] flag and the trace. *)
Record TaskState := { ts_done : bool; ts_events : list event }.

Definition emit (ev : event) : M TaskState unit :=
  fun s => ({| ts_done := ts_done s; ts_events := ts_events s ++ [ev] |},
            Normal tt).

Definition set_done (s : TaskState) : TaskState :=
  {| ts_done := true; ts_events := ts_events s |}.

Definition prompt_suffix (t : AlertType) : string :=
  match t with
  | DISK_USAGE => "How can I free up disk space on this Linux system? Give 2 specific commands or actions."
  | MEMORY_USAGE => "How can I reduce memory usage on this Linux system? Give 2 specific commands or actions."
  | SECURITY_UPDATE => "Should I install these security updates now? Give a brief recommendation."
  | CVE_FOUND => "How serious is this vulnerability and what should I do? Give a brief recommendation."
  | _ => "What action should I take for this alert? Give a brief recommendation."
  end.

Definition nl : string := String (Ascii.ascii_of_nat 10) EmptyString.

(** [SystemMonitor::generate_ai_alert]. *)
Definition generate_ai_alert (env : TaskEnv) (t : AlertType) (context : string)
  : M TaskState string :=
  if negb (te_enable_ai_alerts env) || negb (te_client_present env)
     || negb (te_client_configured env)
  then ret ""
  else
    let prompt := context ++ nl ++ nl ++ prompt_suffix t in
    emit (EvLLMGenerate prompt) ;;;
    r <- of_outcome (te_generate env) ;;
    let '(success, output, _) := r in
    if success && negb (String.eqb output "") then ret output else ret "".

(** [alert_mgr->create(...)] seen from the thread. *)
Definition task_store_create (env : TaskEnv) (sev : AlertSeverity) (ty : AlertType)
  (title msg : string) (meta : metadata) : M TaskState string :=
  emit (EvStoreCreate sev ty title msg meta) ;;; of_outcome (te_create env).

(** The body of the [try] block of the thread lambda. *)
Definition ai_task_body (env : TaskEnv) (type : AlertType)
  (ai_context title alert_id : string) : M TaskState unit :=
  if negb (te_running env) then early_return
  else if negb (te_store_alive env) then early_return
  else
    ai_analysis <- generate_ai_alert env type ai_context ;;
    let meta0 := map_set "analysis_context" ai_context
                   (map_set "ai_enhanced" "true"
                      (map_set "parent_alert_id" alert_id [])) in
    let ai_alert_title := "AI analysis: " ++ title in
    let short_id := substring 0 8 alert_id in
    let '(ai_message, ai_metadata) :=
      if negb (String.eqb ai_analysis "") then
        ("AI-generated analysis:" ++ nl ++ nl ++ ai_analysis ++ nl ++ nl
           ++ "---" ++ nl ++ "Parent alert: " ++ short_id,
         map_set "ai_analysis" ai_analysis meta0)
      else
        ("Automated analysis for alert: " ++ short_id ++ nl ++ nl
           ++ "Context analyzed:" ++ nl ++ ai_context ++ nl ++ nl
           ++ "(AI analysis unavailable or returned empty)",
         meta0) in
    _ <- task_store_create env INFO AI_ANALYSIS ai_alert_title ai_message
           ai_metadata ;;
    ret tt.

(** The whole thread lambda: the [DoneGuard] object wraps the
    [try]/[catch] block. *)
Definition ai_thread (env : TaskEnv) (type : AlertType)
  (ai_context title alert_id : string) : M TaskState unit :=
  with_scope_guard set_done
    (try_catch_all (ai_task_body env type ai_context title alert_id)).

(** ** [SystemMonitor::create_smart_alert] *)

(** An element of [ai_threads_]: whether the [std::thread] is joinable,
    the value its shared [done] flag has when it is read, and the parent
    alert the thread works for. *)
Record AIThreadEntry := {
  th_joinable : bool;
  th_done : bool;
  th_parent : string
}.

(** The part of the monitor that [create_smart_alert] touches. *)
Record MonState := {
  ms_events : list event;
  ms_ai_threads : list AIThreadEntry
}.

(** What the outside world answers to one [create_smart_alert] call. *)
Record SubmitEnv := {
  se_create : outcome string;      (** [alert_manager_->create(...)] *)
  se_client_present : bool;        (** [http_llm_client_] is non-null *)
  se_client_configured : bool      (** [http_llm_client_->is_configured()] *)
}.

Definition ms_emit (ev : event) : M MonState unit :=
  fun s => ({| ms_events := ms_events s ++ [ev];
               ms_ai_threads := ms_ai_threads s |}, Normal tt).

(** [SystemMonitor::cleanupFinishedAIThreads]: joins and erases the
    threads whose [done] flag is set, erases the non-joinable ones. *)
Fixpoint cleanupFinishedAIThreads (l : list AIThreadEntry) : list AIThreadEntry :=
  match l with
  | [] => []
  | e :: rest =>
      if th_done e then cleanupFinishedAIThreads rest
      else if negb (th_joinable e) then cleanupFinishedAIThreads rest
      else e :: cleanupFinishedAIThreads rest
  end.

(** Spawning the thread and, under [ai_threads_mutex_], sweeping the list
    and appending the new entry with a fresh [done] flag. *)
Definition spawn_ai_thread (alert_id : string) : M MonState unit :=
  ms_emit (EvSpawn alert_id) ;;;
  (fun s =>
     ({| ms_events := ms_events s;
         ms_ai_threads :=
           cleanupFinishedAIThreads (ms_ai_threads s)
             ++ [{| th_joinable := true; th_done := false;
                    th_parent := alert_id |}] |}, Normal tt)).

(** A function body: its [return;] ends the call normally. *)
Definition function_body {S} (m : M S unit) : M S unit :=
  fun s =>
    match m s with
    | (s', Return) => (s', Normal tt)
    | r => r
    end.

Definition create_smart_alert (env : SubmitEnv) (severity : AlertSeverity)
  (type : AlertType) (title basic_message ai_context : string)
  (meta : metadata) : M MonState unit :=
  function_body (
    let metadata_copy := map_set "ai_enhanced" "pending" meta in
    ms_emit (EvStoreCreate severity type title basic_message metadata_copy) ;;;
    alert_id <- of_outcome (se_create env) ;;
    if String.eqb alert_id "" || negb (se_client_present env)
       || negb (se_client_configured env)
    then early_return
    else spawn_ai_thread alert_id).

(** Whether a call whose [alert_manager_->create] answered [alert_id]
    spawns an AI thread. *)
Definition spawn_condition (env : SubmitEnv) (alert_id : string) : bool :=
  negb (String.eqb alert_id "") && se_client_present env
  && se_client_configured env.

(** ** [SystemMonitor::run_checks]

    Counters are [long] (64 bits) and percentages [double] in the source;
    the model uses [Z] and [Q]: cumulative CPU tick counts stay far below
    2^63, and the rounding of the floating-point division is not modelled. *)

(** [CpuCounters] of [cortexd/monitor/system_monitor.h]. *)
Record CpuCounters := {
  user : Z; nice : Z; system : Z; idle : Z; iowait : Z
}.

Definition total (c : CpuCounters) : Z :=
  user c + nice c + system c + idle c + iowait c.

Definition used (c : CpuCounters) : Z := user c + nice c + system c.

(** A default-constructed [CpuCounters]. *)
Definition zero_counters : CpuCounters :=
  {| user := 0; nice := 0; system := 0; idle := 0; iowait := 0 |}.

(** The [read_cpu_counters] lambda: [None] when /proc/stat cannot be
    opened, in which case the default counters are returned. *)
Definition read_cpu_counters (r : option CpuCounters) : CpuCounters :=
  match r with Some c => c | None => zero_counters end.

(** The values returned by [memory_monitor_->get_stats()] and
    [disk_monitor_->get_root_stats()] (their [usage_percent()],
    [used_mb()]/[used_gb()] and [total_mb()]/[total_gb()]). *)
Record MemStats := { mem_usage_percent : Q; mem_used_mb : Q; mem_total_mb : Q }.
Record DiskStats := { disk_usage_pct : Q; disk_used : Q; disk_total : Q }.

(** [HealthSnapshot] of [cortexd/common.h]. *)
Record HealthSnapshot := {
  timestamp : Z;
  cpu_usage_percent : Q;
  memory_usage_percent : Q;
  memory_used_mb : Q;
  memory_total_mb : Q;
  disk_usage_percent : Q;
  disk_used_gb : Q;
  disk_total_gb : Q;
  pending_updates : Z;
  security_updates : Z;
  active_alerts : Z;
  critical_alerts : Z
}.

(** What the outside world answers to one [run_checks] call. *)
Record CheckEnv := {
  ce_mem : outcome MemStats;              (** [memory_monitor_->get_stats()] *)
  ce_disk : outcome DiskStats;            (** [disk_monitor_->get_root_stats()] *)
  ce_cpu_read1 : option CpuCounters;      (** first read of /proc/stat *)
  ce_cpu_lock : outcome unit;             (** [std::lock_guard cpu_lock(cpu_mutex_)] *)
  ce_cpu_read2 : option CpuCounters;      (** bootstrap re-read of /proc/stat *)
  ce_enable_apt_monitor : bool;           (** [config.enable_apt_monitor] *)
  ce_apt_check : outcome unit;            (** [apt_monitor_->check_updates()] *)
  ce_apt_pending : Z;                     (** [apt_monitor_->pending_count()] *)
  ce_apt_security : Z;                    (** [apt_monitor_->security_count()] *)
  ce_now : Z;                             (** [Clock::now()] *)
  ce_alert_counts : option (outcome Z * outcome Z);
    (** [None] when [alert_manager_] is null; otherwise the answers of
        [count_active()] and [count_by_severity(CRITICAL)] *)
  ce_thresholds : outcome unit
    (** how [check_thresholds(snapshot_copy)] ends (it is embedded on its
        own below) *)
}.

(** The monitor state [run_checks] reads and writes. *)
Record CheckState := {
  cs_snapshot : HealthSnapshot;            (** [current_snapshot_] *)
  cs_prev_cpu : CpuCounters;               (** [prev_cpu_counters_] *)
  cs_cpu_initialized : bool;               (** [cpu_counters_initialized_] *)
  cs_apt_counter : Z;                      (** [apt_counter_] *)
  cs_evaluated : list HealthSnapshot       (** copies handed to [check_thresholds] *)
}.

Definition set_snapshot (f : HealthSnapshot -> HealthSnapshot) : M CheckState unit :=
  fun s => ({| cs_snapshot := f (cs_snapshot s); cs_prev_cpu := cs_prev_cpu s;
               cs_cpu_initialized := cs_cpu_initialized s;
               cs_apt_counter := cs_apt_counter s;
               cs_evaluated := cs_evaluated s |}, Normal tt).

(** The inner CPU block, [try { ... } catch (...) { }]: returns the local
    [cpu_usage], which stays [0.0] when the block throws or when
    [delta_total <= 0]. *)
Definition cpu_block (env : CheckEnv) : M CheckState Q :=
  fun s =>
    let current := read_cpu_counters (ce_cpu_read1 env) in
    match ce_cpu_lock env with
    | Throws _ => (s, Normal 0%Q)
    | Ok _ =>
        let '(prev, current, init) :=
          if cs_cpu_initialized s then (cs_prev_cpu s, current, true)
          else (current, read_cpu_counters (ce_cpu_read2 env), true) in
        let delta_total := (total current - total prev)%Z in
        let delta_used := (used current - used prev)%Z in
        let cpu_usage :=
          if (0 <? delta_total)%Z
          then ((inject_Z delta_used / inject_Z delta_total) * 100)%Q
          else 0%Q in
        ({| cs_snapshot := cs_snapshot s; cs_prev_cpu := current;
            cs_cpu_initialized := init; cs_apt_counter := cs_apt_counter s;
            cs_evaluated := cs_evaluated s |}, Normal cpu_usage)
    end.

(** [static_cast<int>] of a 64-bit integer, and the wrap-around of
    [int] arithmetic: the value modulo 2^32, in [-2^31, 2^31). *)
Definition wrap32 (z : Z) : Z :=
  let m := (z mod 2 ^ 32)%Z in if (2 ^ 31 <=? m)%Z then (m - 2 ^ 32)%Z else m.

(** The apt part: [fetch_add] on the [std::atomic<int>] counter (it wraps
    from INT_MAX to INT_MIN), [check_updates()] every fifth cycle, then
    the two counts. The test [current_count % 5 == 0] holds for the
    truncated remainder of C++ exactly when it holds for [mod]. *)
Definition apt_fetch_add : M CheckState Z :=
  fun s =>
    ({| cs_snapshot := cs_snapshot s; cs_prev_cpu := cs_prev_cpu s;
        cs_cpu_initialized := cs_cpu_initialized s;
        cs_apt_counter := wrap32 (cs_apt_counter s + 1);
        cs_evaluated := cs_evaluated s |}, Normal (cs_apt_counter s)).

Definition apt_block (env : CheckEnv) : M CheckState (Z * Z) :=
  if ce_enable_apt_monitor env then
    current_count <- apt_fetch_add ;;
    (if (current_count mod 5 =? 0)%Z then of_outcome (ce_apt_check env)
     else ret tt) ;;;
    ret (ce_apt_pending env, ce_apt_security env)
  else ret (0%Z, 0%Z).

(** The fields written under [snapshot_mutex_], in source order. *)
Definition write_measurements (now : Z) (cpu_usage : Q) (m : MemStats)
  (d : DiskStats) (pending security : Z) (h : HealthSnapshot) : HealthSnapshot :=
  {| timestamp := now;
     cpu_usage_percent := cpu_usage;
     memory_usage_percent := mem_usage_percent m;
     memory_used_mb := mem_used_mb m;
     memory_total_mb := mem_total_mb m;
     disk_usage_percent := disk_usage_pct d;
     disk_used_gb := disk_used d;
     disk_total_gb := disk_total d;
     pending_updates := pending;
     security_updates := security;
     active_alerts := active_alerts h;
     critical_alerts := critical_alerts h |}.

Definition set_active_alerts (n : Z) (h : HealthSnapshot) : HealthSnapshot :=
  {| timestamp := timestamp h; cpu_usage_percent := cpu_usage_percent h;
     memory_usage_percent := memory_usage_percent h;
     memory_used_mb := memory_used_mb h; memory_total_mb := memory_total_mb h;
     disk_usage_percent := disk_usage_percent h; disk_used_gb := disk_used_gb h;
     disk_total_gb := disk_total_gb h; pending_updates := pending_updates h;
     security_updates := security_updates h; active_alerts := n;
     critical_alerts := critical_alerts h |}.

Definition set_critical_alerts (n : Z) (h : HealthSnapshot) : HealthSnapshot :=
  {| timestamp := timestamp h; cpu_usage_percent := cpu_usage_percent h;
     memory_usage_percent := memory_usage_percent h;
     memory_used_mb := memory_used_mb h; memory_total_mb := memory_total_mb h;
     disk_usage_percent := disk_usage_percent h; disk_used_gb := disk_used_gb h;
     disk_total_gb := disk_total_gb h; pending_updates := pending_updates h;
     security_updates := security_updates h; active_alerts := active_alerts h;
     critical_alerts := n |}.

(** [snapshot_copy = current_snapshot_] handed to [check_thresholds]. *)
Definition evaluate_copy (env : CheckEnv) : M CheckState unit :=
  (fun s =>
     ({| cs_snapshot := cs_snapshot s; cs_prev_cpu := cs_prev_cpu s;
         cs_cpu_initialized := cs_cpu_initialized s;
         cs_apt_counter := cs_apt_counter s;
         cs_evaluated := (cs_evaluated s ++ [cs_snapshot s])%list |}, Normal tt))
  ;;; of_outcome (ce_thresholds env).

(** [SystemMonitor::run_checks]: the outer [try] catches only exceptions
    derived from [std::exception]. *)
Definition run_checks (env : CheckEnv) : M CheckState unit :=
  try_catch_std (
    mem_stats <- of_outcome (ce_mem env) ;;
    disk_stats <- of_outcome (ce_disk env) ;;
    cpu_usage <- cpu_block env ;;
    counts <- apt_block env ;;
    let '(pending, security) := counts in
    set_snapshot (write_measurements (ce_now env) cpu_usage mem_stats disk_stats
                    pending security) ;;;
    (match ce_alert_counts env with
     | None => ret tt
     | Some (active, critical) =>
         n <- of_outcome active ;;
         set_snapshot (set_active_alerts n) ;;;
         c <- of_outcome critical ;;
         set_snapshot (set_critical_alerts c)
     end) ;;;
    evaluate_copy env).

(** ** [SystemMonitor::monitor_loop] and [SystemMonitor::start] *)

(** What one iteration of the [while (running_)] loop observes: the
    [running_] flag at the loop test, [steady_clock::now()] after the
    sleep (in seconds), [check_interval_secs_] and [check_requested_]. *)
Record LoopTick := {
  lt_running : bool;
  lt_now : Z;
  lt_interval : Z;
  lt_check_requested : bool
}.

(** The loop after the initial check, over the observations of its
    successive iterations (the list ends the observation window). *)
Fixpoint monitor_loop_iter (last_check : Z) (ticks : list LoopTick) : list event :=
  match ticks with
  | [] => []
  | t :: rest =>
      if negb (lt_running t) then []
      else
        EvSleep ::
        (if (lt_interval t <=? lt_now t - last_check)%Z || lt_check_requested t
         then EvRunChecks :: monitor_loop_iter (lt_now t) rest
         else monitor_loop_iter last_check rest)
  end.

(** [SystemMonitor::monitor_loop], started at time [t0]. *)
Definition monitor_loop (t0 : Z) (ticks : list LoopTick) : list event :=
  EvRunChecks :: monitor_loop_iter t0 ticks.

(** [SystemMonitor::start]: the new [running_] flag and the trace of the
    worker thread it spawns ([None] when already running). *)
Definition start (running : bool) (t0 : Z) (ticks : list LoopTick)
  : bool * option (list event) :=
  if running then (true, None) else (true, Some (monitor_loop t0 ticks)).

(** [monitor_loop] with the effect of its checks on the monitor state:
    the [k]-th [run_checks()] call of the worker is answered by [envs k],
    and each event is paired with the monitor state right after it. An
    exception that escapes [run_checks] (one not derived from
    [std::exception]) leaves the thread function, which ends the program
    through [std::terminate]: the trace stops there. *)
Fixpoint monitor_loop_iter_exec (envs : nat -> CheckEnv) (k : nat) (last_check : Z)
  (ticks : list LoopTick) (s : CheckState) : list (event * CheckState) :=
  match ticks with
  | [] => []
  | t :: rest =>
      if negb (lt_running t) then []
      else
        (EvSleep, s) ::
        (if (lt_interval t <=? lt_now t - last_check)%Z || lt_check_requested t
         then let (s', r) := run_checks (envs k) s in
              (EvRunChecks, s') ::
              match r with
              | Normal _ => monitor_loop_iter_exec envs (S k) (lt_now t) rest s'
              | _ => []
              end
         else monitor_loop_iter_exec envs k last_check rest s)
  end.

Definition monitor_loop_exec (envs : nat -> CheckEnv) (t0 : Z)
  (ticks : list LoopTick) (s : CheckState) : list (event * CheckState) :=
  let (s1, r) := run_checks (envs O) s in
  (EvRunChecks, s1) ::
  match r with
  | Normal _ => monitor_loop_iter_exec envs 1 t0 ticks s1
  | _ => []
  end.

(** A default-constructed [HealthSnapshot]: every value zero and the
    timestamp at the epoch. *)
Definition epoch_snapshot : HealthSnapshot :=
  {| timestamp := 0; cpu_usage_percent := 0; memory_usage_percent := 0;
     memory_used_mb := 0; memory_total_mb := 0; disk_usage_percent := 0;
     disk_used_gb := 0; disk_total_gb := 0; pending_updates := 0;
     security_updates := 0; active_alerts := 0; critical_alerts := 0 |}.

(** Predicates used to state the snapshot properties. *)
Definition pct_ok (q : Q) : Prop := (0 <= q /\ q <= 100)%Q.

Definition snapshot_in_range (h : HealthSnapshot) : Prop :=
  pct_ok (cpu_usage_percent h) /\ pct_ok (memory_usage_percent h)
  /\ pct_ok (disk_usage_percent h).

(** Between two samples no [used] tick and no idle tick is taken back. *)
Definition counters_monotone (a b : CpuCounters) : Prop :=
  (used a <= used b)%Z /\ (idle a + iowait a <= idle b + iowait b)%Z.

(** The two samples [cpu_block] subtracts, on either branch. *)
Definition cpu_samples_monotone (env : CheckEnv) (s : CheckState) : Prop :=
  if cs_cpu_initialized s
  then counters_monotone (cs_prev_cpu s) (read_cpu_counters (ce_cpu_read1 env))
  else counters_monotone (read_cpu_counters (ce_cpu_read1 env))
                         (read_cpu_counters (ce_cpu_read2 env)).

Definition collectors_in_range (env : CheckEnv) : Prop :=
  (forall m, ce_mem env = Ok m -> pct_ok (mem_usage_percent m))
  /\ (forall d, ce_disk env = Ok d -> pct_ok (disk_usage_pct d)).

(** The collector failures after which [run_checks] leaves the snapshot
    untouched: a [std::exception] from the memory, disk or apt collector. *)
Definition std_collector_failure (env : CheckEnv) (s : CheckState) : Prop :=
  (exists w, ce_mem env = Throws (StdException w))
  \/ (exists m w, ce_mem env = Ok m /\ ce_disk env = Throws (StdException w))
  \/ (exists m d w, ce_mem env = Ok m /\ ce_disk env = Ok d
        /\ ce_enable_apt_monitor env = true
        /\ (cs_apt_counter s mod 5 = 0)%Z
        /\ ce_apt_check env = Throws (StdException w)).

(** ** [SystemMonitor::check_thresholds] *)

Definition digit_char (d : Z) : Ascii.ascii := Ascii.ascii_of_nat (48 + Z.to_nat d).

Fixpoint digits_aux (fuel : nat) (n : Z) (acc : string) : string :=
  match fuel with
  | O => acc
  | S f =>
      let acc' := String (digit_char (n mod 10)) acc in
      if (n <? 10)%Z then acc' else digits_aux f (n / 10) acc'
  end.

(** [std::to_string] of an integer: its decimal rendering. *)
Definition Z_to_string (z : Z) : string :=
  if (z <? 0)%Z then "-" ++ digits_aux 64 (- z) "" else digits_aux 64 z "".

(** [static_cast<int>] of a double: truncation toward zero. *)
Definition trunc_Q (q : Q) : Z := Z.quot (Qnum q) (Zpos (Qden q)).

Fixpoint pad_left (n : nat) (s : string) : string :=
  match n with
  | O => s
  | S k => if (String.length s <? n)%nat then "0" ++ pad_left k s else s
  end.

(** [std::to_string] of a double ([%f]: six decimals, rounded half away
    from zero on the exact rational value). *)
Definition Q_to_string (q : Q) : string :=
  let a := Z.abs (Qnum q) in
  let d := Zpos (Qden q) in
  let r := ((2 * a * 1000000 + d) / (2 * d))%Z in
  (if (Qnum q <? 0)%Z then "-" else "")
    ++ Z_to_string (r / 1000000) ++ "." ++ pad_left 6 (Z_to_string (r mod 1000000)).

(** The thresholds of the daemon configuration (fractions of 1). *)
Record ThresholdConfig := {
  disk_warn_threshold : Q;
  disk_crit_threshold : Q;
  mem_warn_threshold : Q;
  mem_crit_threshold : Q
}.

(** An entry of [apt_monitor_->get_cached_updates()]: its [to_string()]
    rendering and its [is_security] flag. *)
Record AptUpdate := { update_string : string; is_security : bool }.

(** The arguments of one [create_smart_alert] call. *)
Record AlertRequest := {
  ar_severity : AlertSeverity;
  ar_type : AlertType;
  ar_title : string;
  ar_message : string;
  ar_context : string;
  ar_metadata : metadata
}.

Definition disk_request (sev : AlertSeverity) (title : string)
  (snapshot : HealthSnapshot) : AlertRequest :=
  let pct := Z_to_string (trunc_Q (disk_usage_percent snapshot)) in
  {| ar_severity := sev; ar_type := DISK_USAGE; ar_title := title;
     ar_message := "Disk usage is at " ++ pct ++ "% on root filesystem";
     ar_context := "Disk usage: " ++ pct ++ "%, Used: "
                   ++ Z_to_string (trunc_Q (disk_used_gb snapshot)) ++ "GB / "
                   ++ Z_to_string (trunc_Q (disk_total_gb snapshot)) ++ "GB total";
     ar_metadata := [("total_gb", Q_to_string (disk_total_gb snapshot));
                     ("usage_percent", Q_to_string (disk_usage_percent snapshot));
                     ("used_gb", Q_to_string (disk_used_gb snapshot))] |}.

Definition memory_request (sev : AlertSeverity) (title : string)
  (snapshot : HealthSnapshot) : AlertRequest :=
  let pct := Z_to_string (trunc_Q (memory_usage_percent snapshot)) in
  {| ar_severity := sev; ar_type := MEMORY_USAGE; ar_title := title;
     ar_message := "Memory usage is at " ++ pct ++ "%";
     ar_context := "Memory usage: " ++ pct ++ "%, Used: "
                   ++ Z_to_string (trunc_Q (memory_used_mb snapshot)) ++ "MB / "
                   ++ Z_to_string (trunc_Q (memory_total_mb snapshot)) ++ "MB total";
     ar_metadata := [("total_mb", Q_to_string (memory_total_mb snapshot));
                     ("usage_percent", Q_to_string (memory_usage_percent snapshot));
                     ("used_mb", Q_to_string (memory_used_mb snapshot))] |}.

(** The loop over the cached updates: lists the first five security
    updates and counts them. *)
Fixpoint security_lines (updates : list AptUpdate) (count : Z) (acc : string)
  : string * Z :=
  match updates with
  | [] => (acc, count)
  | u :: rest =>
      if is_security u && (count <? 5)%Z
      then security_lines rest (count + 1) (acc ++ "- " ++ update_string u ++ nl)
      else security_lines rest count acc
  end.

Definition security_request (snapshot : HealthSnapshot)
  (updates : list AptUpdate) : AlertRequest :=
  let '(listed, count) := security_lines updates 0 "" in
  let update_list :=
    if (count <? security_updates snapshot)%Z
    then listed ++ "... and " ++ Z_to_string (security_updates snapshot - count)
           ++ " more" ++ nl
    else listed in
  {| ar_severity := WARNING; ar_type := SECURITY_UPDATE;
     ar_title := "Security updates available";
     ar_message := Z_to_string (security_updates snapshot)
                   ++ " security update(s) available";
     ar_context := Z_to_string (security_updates snapshot)
                   ++ " security updates available:" ++ nl ++ update_list;
     ar_metadata := [("count", Z_to_string (security_updates snapshot))] |}.

(** Whether an external call answered without throwing. *)
Definition outcome_ok {A} (o : outcome A) : bool :=
  match o with Ok _ => true | Throws _ => false end.

(** One [create_smart_alert] call of [check_thresholds], made with the
    arguments of [r] and answered by [env]. Besides the monitor state,
    the state logs the arguments of every call made, in order. *)
Definition submit_request (env : SubmitEnv) (r : AlertRequest)
  : M (list AlertRequest * MonState) unit :=
  fun st =>
    let (calls, ms) := st in
    let (ms', x) := create_smart_alert env (ar_severity r) (ar_type r) (ar_title r)
                      (ar_message r) (ar_context r) (ar_metadata r) ms in
    ((calls ++ [r])%list, ms', x).

(** How a [create_smart_alert] call made by [check_thresholds] ends. *)
Definition create_exit (o : outcome string) : exit unit :=
  match o with Ok _ => Normal tt | Throws e => Raise e end.

(** [SystemMonitor::check_thresholds] ([has_alert_manager] is
    [alert_manager_ != nullptr]; [disk_env], [mem_env] and [sec_env]
    answer the disk, the memory and the security [create_smart_alert]
    call; [cached_updates] is the answer of
    [apt_monitor_->get_cached_updates()]). An exception thrown by one of
    these calls is not caught here: it ends [check_thresholds], and the
    later checks are not made. The comparisons are those of the source:
    [usage_percent / 100.0 >= threshold]. *)
Definition check_thresholds (has_alert_manager : bool) (config : ThresholdConfig)
  (cached_updates : outcome (list AptUpdate)) (disk_env mem_env sec_env : SubmitEnv)
  (snapshot : HealthSnapshot) : M (list AlertRequest * MonState) unit :=
  function_body (
    (if negb has_alert_manager then early_return else ret tt) ;;;
    let disk_pct := (disk_usage_percent snapshot / 100)%Q in
    (if Qle_bool (disk_crit_threshold config) disk_pct
     then submit_request disk_env (disk_request CRITICAL "Critical disk usage" snapshot)
     else if Qle_bool (disk_warn_threshold config) disk_pct
     then submit_request disk_env (disk_request WARNING "High disk usage" snapshot)
     else ret tt) ;;;
    let mem_pct := (memory_usage_percent snapshot / 100)%Q in
    (if Qle_bool (mem_crit_threshold config) mem_pct
     then submit_request mem_env (memory_request CRITICAL "Critical memory usage" snapshot)
     else if Qle_bool (mem_warn_threshold config) mem_pct
     then submit_request mem_env (memory_request WARNING "High memory usage" snapshot)
     else ret tt) ;;;
    (if (0 <? security_updates snapshot)%Z
     then updates <- of_outcome cached_updates ;;
          submit_request sec_env (security_request snapshot updates)
     else ret tt)).

(** A threshold configuration and answers of [create_smart_alert] used
    in the examples. *)
Definition thr_config : ThresholdConfig :=
  {| disk_warn_threshold := 80 # 100; disk_crit_threshold := 95 # 100;
     mem_warn_threshold := 85 # 100; mem_crit_threshold := 95 # 100 |}.

Definition thr_env_ok : SubmitEnv :=
  {| se_create := Ok "a1b2c3d4"; se_client_present := false;
     se_client_configured := false |}.

Definition thr_env_throws : SubmitEnv :=
  {| se_create := Throws (StdException "database is locked");
     se_client_present := false; se_client_configured := false |}.

Definition thr_ms0 : MonState := {| ms_events := []; ms_ai_threads := [] |}.

(** The number of requests of a given severity and type. *)
Definition count_alerts (sev : AlertSeverity) (ty : AlertType)
  (reqs : list AlertRequest) : nat :=
  length (filter (fun r => severity_eqb (ar_severity r) sev
                           && alert_type_eqb (ar_type r) ty) reqs).

(** The line the loop writes for one listed update. *)
Definition update_line (u : AptUpdate) : string := "- " ++ update_string u ++ nl.

Fixpoint concat_strings (l : list string) : string :=
  match l with [] => "" | x :: rest => x ++ concat_strings rest end.

(** The updates the security alert lists: the first five security ones. *)
Definition listed_updates (updates : list AptUpdate) : list AptUpdate :=
  firstn 5 (filter is_security updates).

Set Warnings "-register-all".

(** ** [Request::parse] ([src/daemon/src/ipc/protocol.cpp])

    A parsed nlohmann [json] value; numbers keep nlohmann's three kinds
    (signed integer, unsigned integer, floating point). *)
Inductive json :=
| JNull
| JBool (b : bool)
| JInt (z : Z)
| JUInt (z : Z)
| JFloat (q : Q)
| JString (s : string)
| JArray (l : list json)
| JObject (fields : list (string * json)).

Fixpoint assoc_find (k : string) (l : list (string * json)) : option json :=
  match l with
  | [] => None
  | (k', v) :: rest => if String.eqb k k' then Some v else assoc_find k rest
  end.

(** [j.contains(k)] together with [j[k]]: [None] when [j] is not an
    object or has no key [k]. *)
Definition json_field (j : json) (k : string) : option json :=
  match j with JObject fields => assoc_find k fields | _ => None end.

Definition json_is_number (j : json) : bool :=
  match j with JInt _ | JUInt _ | JFloat _ => true | _ => false end.

(** [j.get<int>()] on a number. For a floating-point value outside the
    [int] range the C++ conversion is undefined; the model truncates. *)
Definition json_get_int (j : json) : Z :=
  match j with
  | JInt z | JUInt z => wrap32 z
  | JFloat q => trunc_Q q
  | _ => 0%Z
  end.

Record Request := {
  req_method : string;
  req_params : json;
  req_id : option string
}.

(** [Request::parse]: [raw] is the outcome of [json::parse] on the input
    string, [None] when it throws [json::parse_error]. *)
Definition Request_parse (raw : option json) : option Request :=
  match raw with
  | None => None
  | Some j =>
      match json_field j "method" with
      | Some (JString m) =>
          let params := match json_field j "params" with
                        | Some p => p
                        | None => JObject []
                        end in
          let id := match json_field j "id" with
                    | Some (JString s) => Some s
                    | Some v => if json_is_number v
                                then Some (Z_to_string (json_get_int v))
                                else None
                    | None => None
                    end in
          Some {| req_method := m; req_params := params; req_id := id |}
      | _ => None
      end
  end.

(** How the id of the parsed request relates to the supplied one. *)
Definition id_matches (supplied : option json) (id : option string) : Prop :=
  match supplied with
  | Some (JString s) => id = Some s
  | Some (JInt z) | Some (JUInt z) => id = Some (Z_to_string (wrap32 z))
  | Some (JFloat q) =>
      (- 2 ^ 31 <= trunc_Q q < 2 ^ 31)%Z -> id = Some (Z_to_string (trunc_Q q))
  | _ => id = None
  end.

(** ** [cortexd::RateLimiter] *)

(** Modelled from the spec: the class [cortexd::RateLimiter] (declared in
    [cortexd/ipc/server.h], used by [tests/unit/test_rate_limiter.cpp]) is
    not in the sources. Following the spec (section 4.4): a fixed window
    of [window_size] = 1000 ms with [window_start], [count_in_window] and
    [limit]; [Allow()] first starts a new window when [window_size] has
    fully elapsed since [window_start], then admits the call iff
    [count_in_window < limit], incrementing the count in the same
    critical section; [Reset()] clears the window. Times are steady-clock
    milliseconds. *)
Module RateLimiter.

Definition WINDOW_SIZE_MS : Z := 1000.

Record t := {
  limit : nat;
  window_start : Z;
  count_in_window : nat
}.

(** [RateLimiter(limit)] constructed at time [now]. *)
Definition create (lim : nat) (now : Z) : t :=
  {| limit := lim; window_start := now; count_in_window := 0 |}.

Definition allow (now : Z) (rl : t) : t * bool :=
  let rl := if (WINDOW_SIZE_MS <=? now - window_start rl)%Z
            then {| limit := limit rl; window_start := now; count_in_window := 0 |}
            else rl in
  if (count_in_window rl <? limit rl)%nat
  then ({| limit := limit rl; window_start := window_start rl;
           count_in_window := S (count_in_window rl) |}, true)
  else (rl, false).

Definition reset (now : Z) (rl : t) : t :=
  {| limit := limit rl; window_start := now; count_in_window := 0 |}.

Inductive op := Allow (now : Z) | Reset (now : Z).

(** Runs a sequence of calls, collecting the answers of [Allow()]. *)
Fixpoint run (rl : t) (ops : list op) : t * list bool :=
  match ops with
  | [] => (rl, [])
  | Allow now :: rest =>
      let '(rl', b) := allow now rl in
      let '(rl'', bs) := run rl' rest in (rl'', b :: bs)
  | Reset now :: rest => run (reset now rl) rest
  end.

End RateLimiter.

(** ** Enum conversions of [cortexd/common.h] *)

(** [to_string(AlertSeverity)]. *)
Definition AlertSeverity_to_string (severity : AlertSeverity) : string :=
  match severity with
  | INFO => "info"
  | WARNING => "warning"
  | ERROR => "error"
  | CRITICAL => "critical"
  end.

(** [to_string(AlertType)]. *)
Definition AlertType_to_string (type : AlertType) : string :=
  match type with
  | SYSTEM => "system"
  | APT_UPDATES => "apt_updates"
  | SECURITY_UPDATE => "security_update"
  | DISK_USAGE => "disk_usage"
  | MEMORY_USAGE => "memory_usage"
  | CVE_FOUND => "cve_found"
  | DEPENDENCY => "dependency"
  | LLM_ERROR => "llm_error"
  | DAEMON_STATUS => "daemon_status"
  | AI_ANALYSIS => "ai_analysis"
  end.

(** [severity_from_string]: the chain of comparisons, [INFO] otherwise. *)
Definition severity_from_string (s : string) : AlertSeverity :=
  if String.eqb s "info" then INFO
  else if String.eqb s "warning" then WARNING
  else if String.eqb s "error" then ERROR
  else if String.eqb s "critical" then CRITICAL
  else INFO.

(** [alert_type_from_string]: the chain of comparisons, [SYSTEM]
    otherwise. *)
Definition alert_type_from_string (s : string) : AlertType :=
  if String.eqb s "system" then SYSTEM
  else if String.eqb s "apt_updates" then APT_UPDATES
  else if String.eqb s "security_update" then SECURITY_UPDATE
  else if String.eqb s "disk_usage" then DISK_USAGE
  else if String.eqb s "memory_usage" then MEMORY_USAGE
  else if String.eqb s "cve_found" then CVE_FOUND
  else if String.eqb s "dependency" then DEPENDENCY
  else if String.eqb s "llm_error" then LLM_ERROR
  else if String.eqb s "daemon_status" then DAEMON_STATUS
  else if String.eqb s "ai_analysis" then AI_ANALYSIS
  else SYSTEM.

(** ** [expand_path] of [cortexd/common.h]

    [home] is the answer of [std::getenv("HOME")] ([None] for a null
    pointer). *)
Definition tilde : Ascii.ascii := Ascii.ascii_of_nat 126.

Definition expand_path (home : option string) (path : string) : string :=
  match path with
  | EmptyString => path
  | String c rest =>
      if negb (Ascii.eqb c tilde) then path
      else match home with
           | None => path
           | Some h => h ++ rest
           end
  end.

(** ** [Response] ([src/daemon/src/ipc/protocol.cpp])

    The [json] value that [dump()] serialises; nlohmann objects keep
    their keys sorted ([std::map]), so the fields are listed in key
    order. *)
Record Response := {
  resp_success : bool;
  resp_result : json;
  resp_error : string;
  resp_error_code : Z
}.

(** [Response::to_json] at [Clock::now()] = [now] (a [time_t]). *)
Definition Response_to_json (now : Z) (r : Response) : json :=
  if resp_success r then
    JObject [("result", resp_result r); ("success", JBool true);
             ("timestamp", JInt now)]
  else
    JObject [("error", JObject [("code", JInt (resp_error_code r));
                                ("message", JString (resp_error r))]);
             ("success", JBool false); ("timestamp", JInt now)].

(** [Response::ok] and [Response::err] start from a default-constructed
    [Response] [dflt] (its member initialisers are in [protocol.h]). *)
Definition Response_ok (dflt : Response) (result : json) : Response :=
  {| resp_success := true; resp_result := result;
     resp_error := resp_error dflt; resp_error_code := resp_error_code dflt |}.

Definition Response_err (dflt : Response) (message : string) (code : Z)
  : Response :=
  {| resp_success := false; resp_result := resp_result dflt;
     resp_error := message; resp_error_code := code |}.

(** ** [SystemMonitor::initialize_http_llm_client] *)

Inductive LLMBackendType := NONE | LOCAL | CLOUD_CLAUDE | CLOUD_OPENAI.

(** The configuration fields it reads. *)
Record LLMConfig := {
  cfg_enable_ai_alerts : bool;
  cfg_llm_backend : string;
  cfg_llm_api_url : string;
  cfg_llm_api_key_env : string
}.

(** The API key lookup of the two cloud branches: the variable named by
    [llm_api_key_env], then [default_env]. [getenv] answers
    [std::getenv] ([None] for a null pointer). *)
Definition cloud_api_key (getenv : string -> option string)
  (key_env default_env : string) : string :=
  let api_key :=
    if negb (String.eqb key_env "") then
      match getenv key_env with Some key => key | None => "" end
    else "" in
  if String.eqb api_key "" then
    match getenv default_env with Some key => key | None => api_key end
  else api_key.

(** The arguments of the [http_llm_client_->configure(...)] call, [None]
    when the function returns before it. *)
Definition initialize_http_llm_client (config : LLMConfig)
  (getenv : string -> option string)
  : option (LLMBackendType * string * string) :=
  if negb (cfg_enable_ai_alerts config) then None
  else if String.eqb (cfg_llm_backend config) "local" then
    Some (LOCAL, cfg_llm_api_url config, "")
  else if String.eqb (cfg_llm_backend config) "cloud_claude" then
    let api_key := cloud_api_key getenv (cfg_llm_api_key_env config)
                     "ANTHROPIC_API_KEY" in
    if String.eqb api_key "" then None else Some (CLOUD_CLAUDE, "", api_key)
  else if String.eqb (cfg_llm_backend config) "cloud_openai" then
    let api_key := cloud_api_key getenv (cfg_llm_api_key_env config)
                     "OPENAI_API_KEY" in
    if String.eqb api_key "" then None else Some (CLOUD_OPENAI, "", api_key)
  else if String.eqb (cfg_llm_backend config) "none"
          || String.eqb (cfg_llm_backend config) "" then None
  else None.

(** ** IPC handlers ([src/daemon/src/ipc/handlers.cpp]) *)

(** [get<T>()] on a value of another type throws [json::type_error]
    (derived from [std::exception]; its [what()] text is not modelled). *)
Definition json_type_error : exn := StdException "type_error".

Definition json_get_string (j : json) : outcome string :=
  match j with JString s => Ok s | _ => Throws json_type_error end.

Definition json_get_bool (j : json) : outcome bool :=
  match j with JBool b => Ok b | _ => Throws json_type_error end.

(** [get<int>()]: numbers as in [Request::parse], booleans as 0 or 1. *)
Definition json_get_int_checked (j : json) : outcome Z :=
  match j with
  | JInt _ | JUInt _ | JFloat _ => Ok (json_get_int j)
  | JBool b => Ok (if b then 1 else 0)%Z
  | _ => Throws json_type_error
  end.

Definition obind {A B} (o : outcome A) (k : A -> outcome B) : outcome B :=
  match o with Ok a => k a | Throws e => Throws e end.

(** [req.params.contains(k) ? get(req.params[k]) : d]. *)
Definition param_or {A} (req : Request) (k : string) (get : json -> outcome A)
  (d : A) : outcome A :=
  match json_field (req_params req) k with Some v => get v | None => Ok d end.

(** [std::vector::resize] to a size above [max_size()] (a negative [int]
    converted to [size_t]) throws [std::length_error]. *)
Definition length_error : exn := StdException "vector::_M_default_append".

(** The answers of the [AlertManager] methods the handlers call; alerts
    are represented by their [to_json()] values. *)
Record AlertsEnv := {
  ae_by_severity : AlertSeverity -> list json;  (** [get_by_severity] *)
  ae_by_type : AlertType -> list json;          (** [get_by_type] *)
  ae_active : list json;                        (** [get_active] *)
  ae_total_active : json;                       (** [count_active()] as json *)
  ae_acknowledge : string -> bool;              (** [acknowledge(id)] *)
  ae_acknowledge_all : Z;                       (** [acknowledge_all()] *)
  ae_dismiss : string -> bool                   (** [dismiss(id)] *)
}.

(** The mutating [AlertManager] calls a handler makes. *)
Inductive mgr_call :=
| CallAcknowledge (id : string)
| CallAcknowledgeAll
| CallDismiss (id : string).

(** [HealthSnapshot::to_json], fields in key order. *)
Definition HealthSnapshot_to_json (h : HealthSnapshot) : json :=
  JObject [("active_alerts", JInt (active_alerts h));
           ("cpu_usage_percent", JFloat (cpu_usage_percent h));
           ("critical_alerts", JInt (critical_alerts h));
           ("disk_total_gb", JFloat (disk_total_gb h));
           ("disk_usage_percent", JFloat (disk_usage_percent h));
           ("disk_used_gb", JFloat (disk_used_gb h));
           ("memory_total_mb", JFloat (memory_total_mb h));
           ("memory_usage_percent", JFloat (memory_usage_percent h));
           ("memory_used_mb", JFloat (memory_used_mb h));
           ("pending_updates", JInt (pending_updates h));
           ("security_updates", JInt (security_updates h));
           ("timestamp", JInt (timestamp h))].

(** [SystemMonitor::get_snapshot] and [SystemMonitor::force_check]. *)
Definition get_snapshot : M CheckState HealthSnapshot :=
  fun s => (s, Normal (cs_snapshot s)).

Definition force_check (env : CheckEnv) : M CheckState HealthSnapshot :=
  run_checks env ;;; get_snapshot.

(** [if (alerts) { snapshot.active_alerts = ...; snapshot.critical_alerts
    = ...; }]: [alerts] carries the answers of [count_active()] and
    [count_by_severity(CRITICAL)]. *)
Definition override_alert_counts (alerts : option (Z * Z))
  (h : HealthSnapshot) : HealthSnapshot :=
  match alerts with
  | None => h
  | Some (active, critical) => set_critical_alerts critical (set_active_alerts active h)
  end.

Section Handlers.

(** The values of [ErrorCodes::INVALID_PARAMS], [INTERNAL_ERROR] and
    [ALERT_NOT_FOUND] and the default-constructed [Response] (all in
    [protocol.h]). *)
Variables INVALID_PARAMS INTERNAL_ERROR ALERT_NOT_FOUND : Z.
Variable dflt : Response.

(** [Handlers::handle_alerts]: [None] for a null [alerts]. *)
Definition handle_alerts (alerts : option AlertsEnv) (req : Request)
  : outcome Response :=
  match alerts with
  | None => Ok (Response_err dflt "Alert manager not available" INTERNAL_ERROR)
  | Some a =>
      obind (param_or req "severity" json_get_string "") (fun severity_filter =>
      obind (param_or req "type" json_get_string "") (fun type_filter =>
      obind (param_or req "limit" json_get_int_checked 100%Z) (fun limit =>
      let alert_list :=
        if negb (String.eqb severity_filter "")
        then ae_by_severity a (severity_from_string severity_filter)
        else if negb (String.eqb type_filter "")
        then ae_by_type a (alert_type_from_string type_filter)
        else ae_active a in
      obind
        (if (limit <? wrap32 (Z.of_nat (length alert_list)))%Z
         then if (limit <? 0)%Z then Throws length_error
              else Ok (firstn (Z.to_nat limit) alert_list)
         else Ok alert_list)
        (fun alert_list =>
           Ok (Response_ok dflt
                 (JObject [("alerts", JArray alert_list);
                           ("count", JUInt (Z.of_nat (length alert_list)));
                           ("total_active", ae_total_active a)]))))))
  end.

(** [Handlers::handle_alerts_ack]: the mutating calls made and how the
    handler ends. *)
Definition handle_alerts_ack (alerts : option AlertsEnv) (req : Request)
  : list mgr_call * outcome Response :=
  match alerts with
  | None => ([], Ok (Response_err dflt "Alert manager not available" INTERNAL_ERROR))
  | Some a =>
      match json_field (req_params req) "id" with
      | Some v =>
          match json_get_string v with
          | Throws e => ([], Throws e)
          | Ok id =>
              ([CallAcknowledge id],
               Ok (if ae_acknowledge a id
                   then Response_ok dflt (JObject [("acknowledged", JString id)])
                   else Response_err dflt "Alert not found" ALERT_NOT_FOUND))
          end
      | None =>
          match json_field (req_params req) "all" with
          | Some v =>
              match json_get_bool v with
              | Throws e => ([], Throws e)
              | Ok true =>
                  ([CallAcknowledgeAll],
                   Ok (Response_ok dflt
                         (JObject [("acknowledged_count",
                                    JInt (wrap32 (ae_acknowledge_all a)))])))
              | Ok false =>
                  ([], Ok (Response_err dflt "Missing 'id' or 'all' parameter"
                             INVALID_PARAMS))
              end
          | None =>
              ([], Ok (Response_err dflt "Missing 'id' or 'all' parameter"
                         INVALID_PARAMS))
          end
      end
  end.

(** [Handlers::handle_alerts_dismiss]. *)
Definition handle_alerts_dismiss (alerts : option AlertsEnv) (req : Request)
  : list mgr_call * outcome Response :=
  match alerts with
  | None => ([], Ok (Response_err dflt "Alert manager not available" INTERNAL_ERROR))
  | Some a =>
      match json_field (req_params req) "id" with
      | None => ([], Ok (Response_err dflt "Missing 'id' parameter" INVALID_PARAMS))
      | Some v =>
          match json_get_string v with
          | Throws e => ([], Throws e)
          | Ok id =>
              ([CallDismiss id],
               Ok (if ae_dismiss a id
                   then Response_ok dflt (JObject [("dismissed", JString id)])
                   else Response_err dflt "Alert not found" ALERT_NOT_FOUND))
          end
      end
  end.

(** [Handlers::handle_health] on the monitor state: a snapshot whose
    timestamp is the epoch triggers [force_check()]. *)
Definition handle_health (env : CheckEnv) (alerts : option (Z * Z))
  : M CheckState Response :=
  snapshot0 <- get_snapshot ;;
  snapshot <- (if (timestamp snapshot0 =? 0)%Z then force_check env
               else ret snapshot0) ;;
  ret (Response_ok dflt (HealthSnapshot_to_json (override_alert_counts alerts snapshot))).

End Handlers.

(** ** [InferenceQueue::check_rate_limit]
    ([src/daemon/src/llm/llama_wrapper.cpp]) *)
Module InferenceQueue.

(** [RateLimiter::MAX_REQUESTS_PER_SECOND] and [WINDOW_SIZE_MS] of
    [llm_wrapper.h]. *)
Definition MAX_REQUESTS_PER_SECOND : Z := 100.
Definition WINDOW_SIZE_MS : Z := 1000.

(** [rate_limiter_]; times are [system_clock] milliseconds. *)
Record rate_limiter := { requests_in_window : Z; last_reset : Z }.

Definition check_rate_limit (now : Z) (rl : rate_limiter) : rate_limiter * bool :=
  let elapsed := (now - last_reset rl)%Z in
  if (WINDOW_SIZE_MS <=? elapsed)%Z then
    ({| requests_in_window := 0; last_reset := now |}, true)
  else if (requests_in_window rl <? MAX_REQUESTS_PER_SECOND)%Z then
    ({| requests_in_window := requests_in_window rl + 1;
        last_reset := last_reset rl |}, true)
  else (rl, false).

(** Successive calls at the given times. *)
Fixpoint run (rl : rate_limiter) (nows : list Z) : rate_limiter * list bool :=
  match nows with
  | [] => (rl, [])
  | now :: rest =>
      let '(rl1, b) := check_rate_limit now rl in
      let '(rl2, bs) := run rl1 rest in
      (rl2, b :: bs)
  end.

Definition admitted (bs : list bool) : nat := length (filter (fun b => b) bs).

End InferenceQueue.

(** The checks run by the monitor loop, counted in its trace. *)
Definition is_run_checks (ev : event) : bool :=
  match ev with EvRunChecks => true | _ => false end.

Definition count_checks (evs : list event) : nat :=
  length (filter is_run_checks evs).

(** A binding of a [std::map<std::string, std::string>] ([m.find(k)]). *)
Definition metadata_find (k : string) (m : metadata) : option string :=
  option_map snd (find (fun p => String.eqb (fst p) k) m).

(** * Theorems *)

(** ** The AI thread *)

Lemma with_scope_guard_set_done {A} (m : M TaskState A) (s : TaskState) :
  ts_done (fst (with_scope_guard set_done m s)) = true.
Proof.
  unfold with_scope_guard. destruct (m s) as [s' r]. reflexivity.
Qed.

Lemma try_catch_all_never_raises (m : M TaskState unit) (s : TaskState) :
  snd (try_catch_all m s) = Normal tt \/ snd (try_catch_all m s) = Return.
Proof.
  unfold try_catch_all. destruct (m s) as [s' [[]| |e]]; simpl; auto.
Qed.

(** C1: every AI thread spawned by [create_smart_alert] sets its shared
    [done] flag whichever way its body ends: normally, by one of the two
    early [return]s (monitor stopping, alert store gone) or through an
    exception thrown by the LLM client or the alert store. The thread
    itself never ends by an exception. *)
Theorem ai_thread_sets_done (env : TaskEnv) (type : AlertType)
  (ai_context title alert_id : string) (s : TaskState) :
  let '(s', r) := ai_thread env type ai_context title alert_id s in
  ts_done s' = true /\ (r = Normal tt \/ r = Return).
Proof.
  pose proof (with_scope_guard_set_done
                (try_catch_all (ai_task_body env type ai_context title alert_id)) s)
    as Hd.
  pose proof (try_catch_all_never_raises
                (ai_task_body env type ai_context title alert_id) s) as Hr.
  unfold ai_thread, with_scope_guard in *.
  destruct (try_catch_all (ai_task_body env type ai_context title alert_id) s)
    as [s' r].
  simpl in *. split; assumption.
Qed.

(** C2: if at thread start the monitor is no longer running, or the weak
    reference to the alert store cannot be locked, the thread calls
    neither the LLM client nor the alert store: its trace is unchanged. *)
Theorem ai_thread_cancelled_no_side_effects (env : TaskEnv) (type : AlertType)
  (ai_context title alert_id : string) (s : TaskState)
  (Hstop : te_running env = false \/ te_store_alive env = false) :
  ts_events (fst (ai_thread env type ai_context title alert_id s)) = ts_events s
  /\ ts_done (fst (ai_thread env type ai_context title alert_id s)) = true.
Proof.
  unfold ai_thread, with_scope_guard, try_catch_all, ai_task_body.
  destruct Hstop as [H | H]; rewrite H; simpl.
  - split; reflexivity.
  - destruct (te_running env); simpl; split; reflexivity.
Qed.

Lemma ai_thread_cancelled_no_side_effects_witness :
  let env := {| te_running := false; te_store_alive := true;
                te_enable_ai_alerts := true; te_client_present := true;
                te_client_configured := true;
                te_generate := Ok (true, "free some space", "");
                te_create := Ok "ai-1" |} in
  let s0 := {| ts_done := false; ts_events := [] |} in
  ts_events (fst (ai_thread env DISK_USAGE "ctx" "Critical disk usage" "a1b2c3d4e5" s0)) = []
  /\ ts_done (fst (ai_thread env DISK_USAGE "ctx" "Critical disk usage" "a1b2c3d4e5" s0)) = true.
Proof.
  intros env s0.
  apply (ai_thread_cancelled_no_side_effects env DISK_USAGE "ctx"
           "Critical disk usage" "a1b2c3d4e5" s0).
  left. reflexivity.
Defined.

(** ** [create_smart_alert] *)

(** C3: a call first calls [alert_manager_->create] for the primary alert
    (with [ai_enhanced = pending]); if that call returns an id, the call
    returns normally and schedules exactly one AI thread when the id is
    non-empty and the LLM client is present and configured, none
    otherwise; if it throws, the exception propagates and nothing is
    scheduled. The thread list only changes by the sweep plus the one new
    entry. *)
Theorem create_smart_alert_spec (env : SubmitEnv) (severity : AlertSeverity)
  (type : AlertType) (title basic_message ai_context : string)
  (meta : metadata) (s : MonState) :
  let primary := EvStoreCreate severity type title basic_message
                   (map_set "ai_enhanced" "pending" meta) in
  let '(s', r) := create_smart_alert env severity type title basic_message
                    ai_context meta s in
  match se_create env with
  | Ok alert_id =>
      r = Normal tt
      /\ ms_events s' = (ms_events s ++ primary
                          :: (if spawn_condition env alert_id
                              then [EvSpawn alert_id] else []))%list
      /\ ms_ai_threads s' =
           (if spawn_condition env alert_id
            then (cleanupFinishedAIThreads (ms_ai_threads s)
                   ++ [{| th_joinable := true; th_done := false;
                          th_parent := alert_id |}])%list
            else ms_ai_threads s)
  | Throws e =>
      r = Raise e /\ ms_events s' = (ms_events s ++ [primary])%list
      /\ ms_ai_threads s' = ms_ai_threads s
  end.
Proof.
  unfold create_smart_alert, function_body, spawn_condition, bind, ms_emit.
  simpl.
  destruct (se_create env) as [alert_id | e]; simpl.
  - destruct (String.eqb alert_id "") eqn:Hid;
      destruct (se_client_present env); destruct (se_client_configured env);
      simpl; unfold early_return, spawn_ai_thread, bind, ms_emit; simpl;
      rewrite <- ?app_assoc; simpl; auto.
  - unfold throw. simpl. auto.
Qed.

(** ** [run_checks] *)

Lemma pct_ok_zero : pct_ok 0.
Proof. unfold pct_ok, Qle; simpl; lia. Qed.

Lemma ratio_pct_ok (du dt : Z) :
  (0 <= du)%Z -> (du <= dt)%Z -> (0 < dt)%Z ->
  pct_ok (inject_Z du / inject_Z dt * 100).
Proof.
  intros H0 H1 H2. destruct dt as [|p|p]; try lia.
  unfold pct_ok, Qle, Qdiv, Qmult, Qinv, inject_Z; simpl. nia.
Qed.

Lemma cpu_block_in_range (env : CheckEnv) (s : CheckState) :
  cpu_samples_monotone env s -> pct_ok (match snd (cpu_block env s) with
                                        | Normal q => q | _ => 0 end).
Proof.
  unfold cpu_samples_monotone, cpu_block, counters_monotone.
  destruct (ce_cpu_lock env); [|intros; apply pct_ok_zero].
  destruct (cs_cpu_initialized s); simpl; intros [Hu Hi];
    match goal with |- context [(0 <? ?x)%Z] => destruct (Z.ltb_spec 0 x) end;
    try apply pct_ok_zero; apply ratio_pct_ok; unfold total, used in *; lia.
Qed.

Lemma cpu_block_shape (env : CheckEnv) (s : CheckState) :
  cs_snapshot (fst (cpu_block env s)) = cs_snapshot s
  /\ cs_apt_counter (fst (cpu_block env s)) = cs_apt_counter s
  /\ exists q, snd (cpu_block env s) = Normal q.
Proof.
  unfold cpu_block. destruct (ce_cpu_lock env); [|simpl; eauto].
  destruct (cs_cpu_initialized s); simpl; eauto.
Qed.

Lemma apt_block_snapshot (env : CheckEnv) (s : CheckState) :
  cs_snapshot (fst (apt_block env s)) = cs_snapshot s.
Proof.
  unfold apt_block, bind, apt_fetch_add, ret, of_outcome, throw.
  destruct (ce_enable_apt_monitor env); simpl; [|reflexivity].
  destruct (cs_apt_counter s mod 5 =? 0)%Z; simpl; [|reflexivity].
  destruct (ce_apt_check env); reflexivity.
Qed.

(** The alert counters and the threshold evaluation leave the three
    percentages as they are. *)
Definition same_percentages (h h' : HealthSnapshot) : Prop :=
  cpu_usage_percent h' = cpu_usage_percent h
  /\ memory_usage_percent h' = memory_usage_percent h
  /\ disk_usage_percent h' = disk_usage_percent h.

Lemma tail_same_percentages (env : CheckEnv) (s : CheckState) :
  same_percentages (cs_snapshot s)
    (cs_snapshot (fst ((match ce_alert_counts env with
                        | None => ret tt
                        | Some (active, critical) =>
                            n <- of_outcome active ;;
                            set_snapshot (set_active_alerts n) ;;;
                            c <- of_outcome critical ;;
                            set_snapshot (set_critical_alerts c)
                        end ;;; evaluate_copy env) s))).
Proof.
  unfold same_percentages, evaluate_copy, bind, ret, of_outcome, throw,
    set_snapshot.
  destruct (ce_alert_counts env) as [[a c]|]; simpl;
    [destruct a; simpl; [destruct c; simpl|]|];
    destruct (ce_thresholds env); simpl; auto.
Qed.

(** C6 (as corrected): if the previous snapshot has its three
    percentages in [0,100], the memory and disk collectors report values
    in [0,100] and the CPU counters subtracted by this check do not go
    backwards, every snapshot [run_checks] leaves behind, on every path,
    has its three percentages in [0,100]. *)
Theorem run_checks_snapshot_in_range (env : CheckEnv) (s : CheckState)
  (Hh : snapshot_in_range (cs_snapshot s))
  (Hcol : collectors_in_range env)
  (Hmono : cpu_samples_monotone env s) :
  snapshot_in_range (cs_snapshot (fst (run_checks env s))).
Proof.
  destruct Hcol as [Hm Hd].
  pose proof (cpu_block_in_range env s Hmono) as Hq.
  destruct (cpu_block_shape env s) as [Hs1 [_ [q Hr1]]].
  rewrite Hr1 in Hq.
  unfold run_checks, try_catch_std, bind, of_outcome, ret, throw.
  destruct (ce_mem env) as [m|[w|]] eqn:Em; cbn -[cpu_block apt_block]; try exact Hh.
  destruct (ce_disk env) as [d|[w|]] eqn:Ed; cbn -[cpu_block apt_block]; try exact Hh.
  destruct (cpu_block env s) as [s1 r1]; cbn in Hs1, Hr1; subst r1.
  pose proof (apt_block_snapshot env s1) as Ha.
  destruct (apt_block env s1) as [s2 [[p sec]| |[w|]]]; cbn in Ha;
    try (cbn; rewrite Ha, Hs1; exact Hh).
  specialize (Hm m eq_refl); specialize (Hd d eq_refl).
  unfold set_snapshot, evaluate_copy.
  destruct (ce_alert_counts env) as [[[a|[w|]] [c|[w'|]]]|]; cbn;
    destruct (ce_thresholds env) as [|[]]; cbn;
    unfold snapshot_in_range; cbn; auto.
Qed.

Lemma run_checks_snapshot_in_range_witness :
  let snap0 := {| timestamp := 0; cpu_usage_percent := 10;
                  memory_usage_percent := 20; memory_used_mb := 800;
                  memory_total_mb := 4000; disk_usage_percent := 30;
                  disk_used_gb := 30; disk_total_gb := 100;
                  pending_updates := 0; security_updates := 0;
                  active_alerts := 0; critical_alerts := 0 |} in
  let s0 := {| cs_snapshot := snap0;
               cs_prev_cpu := {| user := 100; nice := 0; system := 50;
                                 idle := 800; iowait := 50 |};
               cs_cpu_initialized := true; cs_apt_counter := 0;
               cs_evaluated := [] |} in
  let env := {| ce_mem := Ok {| mem_usage_percent := 25; mem_used_mb := 1000;
                                mem_total_mb := 4000 |};
                ce_disk := Ok {| disk_usage_pct := 40; disk_used := 40;
                                 disk_total := 100 |};
                ce_cpu_read1 := Some {| user := 130; nice := 0; system := 70;
                                        idle := 900; iowait := 50 |};
                ce_cpu_lock := Ok tt; ce_cpu_read2 := None;
                ce_enable_apt_monitor := false; ce_apt_check := Ok tt;
                ce_apt_pending := 0; ce_apt_security := 0; ce_now := 5;
                ce_alert_counts := Some (Ok 1%Z, Ok 0%Z); ce_thresholds := Ok tt |} in
  snapshot_in_range (cs_snapshot (fst (run_checks env s0))).
Proof.
  intros snap0 s0 env.
  apply run_checks_snapshot_in_range.
  - unfold snapshot_in_range, pct_ok, Qle; simpl; lia.
  - split; intros x Hx; simpl in Hx; inversion Hx; subst;
      unfold pct_ok, Qle; simpl; lia.
  - unfold cpu_samples_monotone, counters_monotone, used; simpl; lia.
Defined.

(** C6 fails as stated: when the cumulative [iowait] counter of
    /proc/stat goes backwards between two samples (the kernel documents
    that it may), [delta_used] exceeds [delta_total] and the published
    [cpu_usage_percent] is 200. *)
Lemma run_checks_cpu_over_100 :
  let snap0 := {| timestamp := 0; cpu_usage_percent := 0;
                  memory_usage_percent := 0; memory_used_mb := 0;
                  memory_total_mb := 0; disk_usage_percent := 0;
                  disk_used_gb := 0; disk_total_gb := 0;
                  pending_updates := 0; security_updates := 0;
                  active_alerts := 0; critical_alerts := 0 |} in
  let s0 := {| cs_snapshot := snap0;
               cs_prev_cpu := {| user := 1000; nice := 0; system := 0;
                                 idle := 5000; iowait := 400 |};
               cs_cpu_initialized := true; cs_apt_counter := 0;
               cs_evaluated := [] |} in
  let env := {| ce_mem := Ok {| mem_usage_percent := 50; mem_used_mb := 2000;
                                mem_total_mb := 4000 |};
                ce_disk := Ok {| disk_usage_pct := 50; disk_used := 50;
                                 disk_total := 100 |};
                ce_cpu_read1 := Some {| user := 1100; nice := 0; system := 0;
                                        idle := 5000; iowait := 350 |};
                ce_cpu_lock := Ok tt; ce_cpu_read2 := None;
                ce_enable_apt_monitor := false; ce_apt_check := Ok tt;
                ce_apt_pending := 0; ce_apt_security := 0; ce_now := 5;
                ce_alert_counts := None; ce_thresholds := Ok tt |} in
  snapshot_in_range snap0
  /\ cpu_usage_percent (cs_snapshot (fst (run_checks env s0))) == 200
  /\ ~ snapshot_in_range (cs_snapshot (fst (run_checks env s0))).
Proof.
  intros snap0 s0 env. split; [|split].
  - unfold snapshot_in_range, pct_ok, Qle; simpl; lia.
  - vm_compute. reflexivity.
  - unfold snapshot_in_range, pct_ok. intros [[_ H] _].
    vm_compute in H. apply H. reflexivity.
Qed.

Lemma apt_block_normal (env : CheckEnv) (s : CheckState) :
  ce_enable_apt_monitor env = false \/ ce_apt_check env = Ok tt ->
  exists p sec, snd (apt_block env s) = Normal (p, sec).
Proof.
  unfold apt_block, bind, apt_fetch_add, ret, of_outcome.
  intros [H | H]; rewrite H; simpl; [eauto|].
  destruct (ce_enable_apt_monitor env); simpl; [|eauto].
  destruct (cs_apt_counter s mod 5 =? 0)%Z; simpl; eauto.
Qed.

(** A [std::exception] from the memory, disk or apt collector abandons
    the check before the snapshot is written; [run_checks] returns
    normally. *)
Lemma run_checks_std_failure_keeps_snapshot (env : CheckEnv) (s : CheckState) :
  std_collector_failure env s ->
  cs_snapshot (fst (run_checks env s)) = cs_snapshot s
  /\ snd (run_checks env s) = Normal tt.
Proof.
  unfold run_checks, try_catch_std, bind, of_outcome, ret, throw.
  intros [[w Em] | [[m [w [Em Ed]]] | [m [d [w [Em [Ed [Ea [Hc Et]]]]]]]]];
    rewrite Em; cbn -[cpu_block apt_block]; auto.
  - rewrite Ed; cbn -[cpu_block apt_block]; auto.
  - rewrite Ed; cbn -[cpu_block apt_block].
    destruct (cpu_block_shape env s) as [Hs1 [Hc1 [q Hr1]]].
    destruct (cpu_block env s) as [s1 r1]; cbn in Hs1, Hc1, Hr1; subst r1.
    unfold apt_block, bind, apt_fetch_add, of_outcome, throw.
    rewrite Ea, Hc1, Hc, Et; cbn. auto.
Qed.

(** A failure inside the CPU block (an exception, or /proc/stat that
    cannot be opened once the sampler is initialised) publishes a CPU
    usage of 0. *)
Lemma run_checks_cpu_failure_zero (env : CheckEnv) (s : CheckState) m d :
  ce_mem env = Ok m -> ce_disk env = Ok d ->
  ((exists e, ce_cpu_lock env = Throws e)
   \/ (ce_cpu_read1 env = None /\ cs_cpu_initialized s = true
       /\ (0 <= total (cs_prev_cpu s))%Z)) ->
  (ce_enable_apt_monitor env = false \/ ce_apt_check env = Ok tt) ->
  cpu_usage_percent (cs_snapshot (fst (run_checks env s))) = 0%Q.
Proof.
  intros Em Ed Hcpu Hapt.
  assert (Hq : snd (cpu_block env s) = Normal 0%Q).
  { unfold cpu_block.
    destruct Hcpu as [[e He] | [Hr [Hi Ht]]]; [rewrite He; reflexivity|].
    destruct (ce_cpu_lock env); [|reflexivity].
    rewrite Hr, Hi. cbn.
    match goal with |- context [(0 <? ?x)%Z] =>
      destruct (Z.ltb_spec 0 x) as [Hlt|]; [|reflexivity] end.
    lia. }
  destruct (cpu_block_shape env s) as [Hs1 [Hc1 _]].
  unfold run_checks, try_catch_std, bind, of_outcome, ret, throw.
  rewrite Em, Ed; cbn -[cpu_block apt_block].
  destruct (cpu_block env s) as [s1 r1]; cbn in Hs1, Hc1, Hq; subst r1.
  destruct (apt_block_normal env s1 Hapt) as [p [sec Ha]].
  destruct (apt_block env s1) as [s2 r2]; cbn in Ha; subst r2.
  unfold set_snapshot, evaluate_copy.
  destruct (ce_alert_counts env) as [[[a|[w|]] [c|[w'|]]]|]; cbn;
    destruct (ce_thresholds env) as [|[]]; cbn; reflexivity.
Qed.

(** An exception not derived from [std::exception] is not caught by
    [run_checks]. *)
Lemma run_checks_other_exception_escapes (env : CheckEnv) (s : CheckState) :
  ce_mem env = Throws OtherException ->
  snd (run_checks env s) = Raise OtherException.
Proof.
  intros Em. unfold run_checks, try_catch_std, bind, of_outcome, throw.
  rewrite Em. reflexivity.
Qed.

(** C4 fails as stated: with the CPU sampler initialised and /proc/stat
    unreadable in this check, the CPU usage of the previous snapshot (40)
    is not kept but replaced by 0. *)
Lemma run_checks_cpu_failure_not_kept :
  let snap0 := {| timestamp := 0; cpu_usage_percent := 40;
                  memory_usage_percent := 50; memory_used_mb := 2000;
                  memory_total_mb := 4000; disk_usage_percent := 50;
                  disk_used_gb := 50; disk_total_gb := 100;
                  pending_updates := 0; security_updates := 0;
                  active_alerts := 0; critical_alerts := 0 |} in
  let s0 := {| cs_snapshot := snap0;
               cs_prev_cpu := {| user := 100; nice := 0; system := 0;
                                 idle := 900; iowait := 0 |};
               cs_cpu_initialized := true; cs_apt_counter := 0;
               cs_evaluated := [] |} in
  let env := {| ce_mem := Ok {| mem_usage_percent := 50; mem_used_mb := 2000;
                                mem_total_mb := 4000 |};
                ce_disk := Ok {| disk_usage_pct := 50; disk_used := 50;
                                 disk_total := 100 |};
                ce_cpu_read1 := None;
                ce_cpu_lock := Ok tt; ce_cpu_read2 := None;
                ce_enable_apt_monitor := false; ce_apt_check := Ok tt;
                ce_apt_pending := 0; ce_apt_security := 0; ce_now := 5;
                ce_alert_counts := None; ce_thresholds := Ok tt |} in
  cpu_usage_percent (cs_snapshot s0) = 40%Q
  /\ cpu_usage_percent (cs_snapshot (fst (run_checks env s0))) = 0%Q.
Proof.
  intros snap0 s0 env. split; vm_compute; reflexivity.
Qed.

(** C4 (as corrected): a [std::exception] thrown by the memory, disk or
    apt collector leaves the whole snapshot unchanged and [run_checks]
    returns normally, so the monitor loop goes on; a failure of the CPU
    sample (an exception inside the CPU block, or /proc/stat unreadable
    once the sampler is initialised) publishes a CPU usage of 0; an
    exception not derived from [std::exception] escapes [run_checks]. *)
Theorem run_checks_failure_handling (env : CheckEnv) (s : CheckState) :
  (std_collector_failure env s ->
   cs_snapshot (fst (run_checks env s)) = cs_snapshot s
   /\ snd (run_checks env s) = Normal tt)
  /\ (forall m d,
        ce_mem env = Ok m -> ce_disk env = Ok d ->
        ((exists e, ce_cpu_lock env = Throws e)
         \/ (ce_cpu_read1 env = None /\ cs_cpu_initialized s = true
             /\ (0 <= total (cs_prev_cpu s))%Z)) ->
        (ce_enable_apt_monitor env = false \/ ce_apt_check env = Ok tt) ->
        cpu_usage_percent (cs_snapshot (fst (run_checks env s))) = 0%Q)
  /\ (ce_mem env = Throws OtherException ->
      snd (run_checks env s) = Raise OtherException).
Proof.
  split; [|split].
  - apply run_checks_std_failure_keeps_snapshot.
  - intros m d. apply run_checks_cpu_failure_zero.
  - apply run_checks_other_exception_escapes.
Qed.

Lemma run_checks_failure_handling_witness :
  let snap0 := {| timestamp := 0; cpu_usage_percent := 40;
                  memory_usage_percent := 50; memory_used_mb := 2000;
                  memory_total_mb := 4000; disk_usage_percent := 50;
                  disk_used_gb := 50; disk_total_gb := 100;
                  pending_updates := 0; security_updates := 0;
                  active_alerts := 0; critical_alerts := 0 |} in
  let s0 := {| cs_snapshot := snap0; cs_prev_cpu := zero_counters;
               cs_cpu_initialized := true; cs_apt_counter := 0;
               cs_evaluated := [] |} in
  let env := {| ce_mem := Throws (StdException "cannot read /proc/meminfo");
                ce_disk := Ok {| disk_usage_pct := 60; disk_used := 60;
                                 disk_total := 100 |};
                ce_cpu_read1 := None;
                ce_cpu_lock := Ok tt; ce_cpu_read2 := None;
                ce_enable_apt_monitor := false; ce_apt_check := Ok tt;
                ce_apt_pending := 0; ce_apt_security := 0; ce_now := 5;
                ce_alert_counts := None; ce_thresholds := Ok tt |} in
  cs_snapshot (fst (run_checks env s0)) = snap0
  /\ snd (run_checks env s0) = Normal tt.
Proof.
  intros snap0 s0 env.
  apply (proj1 (run_checks_failure_handling env s0)).
  left. exists "cannot read /proc/meminfo". reflexivity.
Defined.

(** ** [monitor_loop] and [start] *)

Lemma run_checks_publishes (env : CheckEnv) (s : CheckState) m d :
  ce_mem env = Ok m -> ce_disk env = Ok d ->
  (ce_enable_apt_monitor env = false \/ ce_apt_check env = Ok tt) ->
  let h := cs_snapshot (fst (run_checks env s)) in
  timestamp h = ce_now env
  /\ memory_usage_percent h = mem_usage_percent m
  /\ disk_usage_percent h = disk_usage_pct d.
Proof.
  intros Em Ed Hapt h. subst h.
  destruct (cpu_block_shape env s) as [Hs1 [Hc1 [q Hq]]].
  unfold run_checks, try_catch_std, bind, of_outcome, ret, throw.
  rewrite Em, Ed; cbn -[cpu_block apt_block].
  destruct (cpu_block env s) as [s1 r1]; cbn in Hs1, Hc1, Hq; subst r1.
  destruct (apt_block_normal env s1 Hapt) as [p [sec Ha]].
  destruct (apt_block env s1) as [s2 r2]; cbn in Ha; subst r2.
  unfold set_snapshot, evaluate_copy.
  destruct (ce_alert_counts env) as [[[a|[w|]] [c|[w'|]]]|]; cbn;
    destruct (ce_thresholds env) as [|[]]; cbn; auto.
Qed.

Lemma monitor_loop_iter_exec_events (envs : nat -> CheckEnv) :
  (forall k s, snd (run_checks (envs k) s) = Normal tt) ->
  forall ticks k last s,
    map fst (monitor_loop_iter_exec envs k last ticks s) = monitor_loop_iter last ticks.
Proof.
  intros Hok ticks. induction ticks as [|t rest IH]; intros k last s; [reflexivity|].
  cbn [monitor_loop_iter_exec monitor_loop_iter].
  destruct (lt_running t); cbn [negb]; [|reflexivity].
  cbn [map fst].
  destruct ((lt_interval t <=? lt_now t - last)%Z || lt_check_requested t).
  - specialize (Hok k s). destruct (run_checks (envs k) s) as [s' r].
    cbn in Hok; subst r. cbn [map fst]. rewrite IH. reflexivity.
  - rewrite IH. reflexivity.
Qed.

(** C10 fails as stated: the first check runs at once, but when the
    memory collector throws a [std::exception] it publishes nothing: the
    monitor keeps its default, epoch-stamped snapshot. *)
Lemma monitor_loop_first_check_unpublished :
  let s0 := {| cs_snapshot := epoch_snapshot; cs_prev_cpu := zero_counters;
               cs_cpu_initialized := false; cs_apt_counter := 0;
               cs_evaluated := [] |} in
  let env := {| ce_mem := Throws (StdException "cannot open /proc/meminfo");
                ce_disk := Ok {| disk_usage_pct := 40; disk_used := 40;
                                 disk_total := 100 |};
                ce_cpu_read1 := None; ce_cpu_lock := Ok tt; ce_cpu_read2 := None;
                ce_enable_apt_monitor := false; ce_apt_check := Ok tt;
                ce_apt_pending := 0; ce_apt_security := 0; ce_now := 1700000000;
                ce_alert_counts := None; ce_thresholds := Ok tt |} in
  monitor_loop_exec (fun _ => env) 0 [] s0 = [(EvRunChecks, s0)]
  /\ timestamp (cs_snapshot s0) = 0%Z.
Proof. split; reflexivity. Qed.

(** C10 (as corrected): the worker's very first action is a full check,
    before the first one-second sleep and whatever the interval. That
    check publishes a snapshot stamped with its clock and holding the
    measured memory and disk usage when the memory and disk collectors
    and the apt step succeed; when one of them throws a
    [std::exception] the snapshot stays as it was. When no check lets an
    exception escape, [start] on a stopped monitor spawns a worker whose
    events are exactly those of this loop. *)
Theorem monitor_loop_checks_first (envs : nat -> CheckEnv) (t0 : Z)
  (ticks : list LoopTick) (s : CheckState) :
  let s1 := fst (run_checks (envs O) s) in
  (exists rest, monitor_loop_exec envs t0 ticks s = (EvRunChecks, s1) :: rest)
  /\ (forall m d, ce_mem (envs O) = Ok m -> ce_disk (envs O) = Ok d ->
        (ce_enable_apt_monitor (envs O) = false \/ ce_apt_check (envs O) = Ok tt) ->
        timestamp (cs_snapshot s1) = ce_now (envs O)
        /\ memory_usage_percent (cs_snapshot s1) = mem_usage_percent m
        /\ disk_usage_percent (cs_snapshot s1) = disk_usage_pct d)
  /\ (std_collector_failure (envs O) s -> cs_snapshot s1 = cs_snapshot s)
  /\ ((forall k s', snd (run_checks (envs k) s') = Normal tt) ->
      start false t0 ticks
      = (true, Some (map fst (monitor_loop_exec envs t0 ticks s)))).
Proof.
  intros s1. split; [|split; [|split]].
  - unfold monitor_loop_exec. subst s1.
    destruct (run_checks (envs O) s) as [s' r]. eexists. reflexivity.
  - intros m d Em Ed Hapt. exact (run_checks_publishes (envs O) s m d Em Ed Hapt).
  - intros Hf. exact (proj1 (run_checks_std_failure_keeps_snapshot (envs O) s Hf)).
  - intros Hok. unfold start, monitor_loop, monitor_loop_exec.
    pose proof (Hok O s) as H0.
    destruct (run_checks (envs O) s) as [s' r]. cbn in H0; subst r.
    cbn [map fst]. rewrite (monitor_loop_iter_exec_events envs Hok). reflexivity.
Qed.

(** ** [check_thresholds] *)

Lemma security_request_kind (snapshot : HealthSnapshot) (updates : list AptUpdate) :
  ar_severity (security_request snapshot updates) = WARNING
  /\ ar_type (security_request snapshot updates) = SECURITY_UPDATE.
Proof.
  unfold security_request. destruct (security_lines updates 0 "").
  split; reflexivity.
Qed.

Lemma submit_request_spec (env : SubmitEnv) (r : AlertRequest)
  (calls : list AlertRequest) (ms : MonState) :
  exists ms', submit_request env r (calls, ms)
              = ((calls ++ [r])%list, ms', create_exit (se_create env)).
Proof.
  unfold submit_request, create_smart_alert, function_body, bind, ms_emit,
    of_outcome, ret, throw, early_return.
  destruct (se_create env) as [alert_id | e]; cbn; [|eexists; reflexivity].
  destruct (String.eqb alert_id "" || negb (se_client_present env)
            || negb (se_client_configured env)); cbn.
  - eexists; reflexivity.
  - unfold spawn_ai_thread, bind, ms_emit. cbn. eexists; reflexivity.
Qed.

Ltac submit_step :=
  match goal with
  | |- context [submit_request ?env ?r (?calls, ?ms)] =>
      let ms' := fresh "ms" in
      let E := fresh "E" in
      destruct (submit_request_spec env r calls ms) as [ms' E]; rewrite E;
      cbn [create_exit]
  end.

Ltac thr_crunch :=
  repeat (first
    [ progress cbn [negb andb orb create_exit of_outcome throw ret]
    | match goal with
      | |- context [submit_request ?env ?r (?calls, ?ms)] => submit_step
      | |- context [(if ?b then _ else _) _] => destruct b
      | |- context [create_exit ?o] => destruct o
      | |- context [of_outcome ?o] => destruct o
      end ]).

(** C5 fails as stated: without an alert manager (the constructor's
    default argument is [nullptr]) a disk usage of 96% over a critical
    threshold of 0.95 emits no alert; with an alert manager whose
    [create] throws on the disk alert, a memory usage of 96% over a
    critical threshold of 0.95 emits no memory alert either. *)
Lemma check_thresholds_no_manager_disk :
  let snapshot := {| timestamp := 0; cpu_usage_percent := 5;
                     memory_usage_percent := 96; memory_used_mb := 3840;
                     memory_total_mb := 4000; disk_usage_percent := 96;
                     disk_used_gb := 96; disk_total_gb := 100;
                     pending_updates := 0; security_updates := 0;
                     active_alerts := 0; critical_alerts := 0 |} in
  Qle_bool (disk_crit_threshold thr_config) (disk_usage_percent snapshot / 100) = true
  /\ Qle_bool (mem_crit_threshold thr_config) (memory_usage_percent snapshot / 100) = true
  /\ count_alerts CRITICAL DISK_USAGE
       (fst (fst (check_thresholds false thr_config (Ok []) thr_env_ok thr_env_ok
                    thr_env_ok snapshot ([], thr_ms0)))) = 0%nat
  /\ count_alerts CRITICAL MEMORY_USAGE
       (fst (fst (check_thresholds true thr_config (Ok []) thr_env_throws thr_env_ok
                    thr_env_ok snapshot ([], thr_ms0)))) = 0%nat.
Proof. split; [|split; [|split]]; vm_compute; reflexivity. Qed.

(** C5 (as corrected): with an alert manager, the evaluation makes one
    CRITICAL disk request when [usage / 100 >= crit], else one WARNING
    disk request when [usage / 100 >= warn], else none; a disk call that
    throws ends the evaluation with that exception; otherwise the memory
    requests follow the same rule. CRITICAL and WARNING are never both
    requested for one resource; without an alert manager nothing is
    requested. *)
Theorem check_thresholds_disk_memory (has_alert_manager : bool)
  (config : ThresholdConfig) (cached_updates : outcome (list AptUpdate))
  (disk_env mem_env sec_env : SubmitEnv) (snapshot : HealthSnapshot)
  (ms : MonState) :
  let res := check_thresholds has_alert_manager config cached_updates
               disk_env mem_env sec_env snapshot ([], ms) in
  let reqs := fst (fst res) in
  let disk_pct := (disk_usage_percent snapshot / 100)%Q in
  let mem_pct := (memory_usage_percent snapshot / 100)%Q in
  let disk_crit := Qle_bool (disk_crit_threshold config) disk_pct in
  let disk_warn := negb disk_crit && Qle_bool (disk_warn_threshold config) disk_pct in
  let disk_passed := negb (disk_crit || disk_warn) || outcome_ok (se_create disk_env) in
  let mem_crit := Qle_bool (mem_crit_threshold config) mem_pct in
  let mem_warn := negb mem_crit && Qle_bool (mem_warn_threshold config) mem_pct in
  count_alerts CRITICAL DISK_USAGE reqs
    = (if has_alert_manager && disk_crit then 1 else 0)%nat
  /\ count_alerts WARNING DISK_USAGE reqs
    = (if has_alert_manager && disk_warn then 1 else 0)%nat
  /\ (forall e, has_alert_manager && (disk_crit || disk_warn) = true ->
        se_create disk_env = Throws e -> snd res = Raise e)
  /\ count_alerts CRITICAL MEMORY_USAGE reqs
    = (if has_alert_manager && disk_passed && mem_crit then 1 else 0)%nat
  /\ count_alerts WARNING MEMORY_USAGE reqs
    = (if has_alert_manager && disk_passed && mem_warn then 1 else 0)%nat
  /\ (count_alerts CRITICAL DISK_USAGE reqs + count_alerts WARNING DISK_USAGE reqs
      <= 1)%nat
  /\ (count_alerts CRITICAL MEMORY_USAGE reqs
      + count_alerts WARNING MEMORY_USAGE reqs <= 1)%nat.
Proof.
  intros res reqs disk_pct mem_pct disk_crit disk_warn disk_passed mem_crit mem_warn.
  subst reqs res disk_passed disk_warn mem_warn disk_crit mem_crit disk_pct mem_pct.
  unfold check_thresholds, function_body, bind, early_return, ret.
  destruct has_alert_manager; thr_crunch; cbn;
  rewrite ?(proj1 (security_request_kind _ _)), ?(proj2 (security_request_kind _ _));
  cbn; repeat split; try discriminate; try congruence; lia.
Qed.

Lemma string_append_assoc (a b c : string) : (a ++ b) ++ c = a ++ (b ++ c).
Proof. induction a as [|ch a IH]; simpl; [reflexivity | now rewrite IH]. Qed.

Lemma string_append_empty (a : string) : a ++ "" = a.
Proof. induction a as [|ch a IH]; simpl; [reflexivity | now rewrite IH]. Qed.

(** The loop lists the first [5 - count] security updates not yet listed. *)
Lemma security_lines_spec (updates : list AptUpdate) (count : Z) (acc : string) :
  (0 <= count <= 5)%Z ->
  security_lines updates count acc =
    (acc ++ concat_strings (map update_line
                              (firstn (Z.to_nat (5 - count))
                                      (filter is_security updates))),
     (count + Z.of_nat (length (firstn (Z.to_nat (5 - count))
                                       (filter is_security updates))))%Z).
Proof.
  revert count acc.
  induction updates as [|u rest IH]; intros count acc Hc.
  - simpl. rewrite firstn_nil. simpl. rewrite string_append_empty, Z.add_0_r.
    reflexivity.
  - cbn [security_lines filter]. destruct (is_security u) eqn:Hu;
      cbn [andb].
    + destruct (Z.ltb_spec count 5) as [Hlt|Hge].
      * rewrite IH by lia.
        replace (Z.to_nat (5 - count)) with (S (Z.to_nat (5 - (count + 1))))
          by lia.
        set (k := Z.to_nat (5 - (count + 1))).
        cbn [firstn map concat_strings length]. unfold update_line.
        rewrite !string_append_assoc. f_equal. lia.
      * assert (count = 5)%Z by lia. subst count.
        rewrite IH by lia. reflexivity.
    + apply IH. exact Hc.
Qed.

(** C7 fails as stated: without an alert manager, three pending security
    updates emit no security-update alert; with an alert manager whose
    [create] throws on a critical disk alert, they emit none either. *)
Lemma check_thresholds_no_manager_security :
  let snapshot := {| timestamp := 0; cpu_usage_percent := 5;
                     memory_usage_percent := 10; memory_used_mb := 400;
                     memory_total_mb := 4000; disk_usage_percent := 96;
                     disk_used_gb := 96; disk_total_gb := 100;
                     pending_updates := 3; security_updates := 3;
                     active_alerts := 0; critical_alerts := 0 |} in
  let updates := Ok [ {| update_string := "openssl 3.0.13"; is_security := true |} ] in
  count_alerts WARNING SECURITY_UPDATE
    (fst (fst (check_thresholds false thr_config updates thr_env_ok thr_env_ok
                 thr_env_ok snapshot ([], thr_ms0)))) = 0%nat
  /\ count_alerts WARNING SECURITY_UPDATE
       (fst (fst (check_thresholds true thr_config updates thr_env_throws thr_env_ok
                    thr_env_ok snapshot ([], thr_ms0)))) = 0%nat.
Proof. split; vm_compute; reflexivity. Qed.

(** C7 (as corrected): with an alert manager, [security_updates > 0],
    and no earlier disk or memory [create_smart_alert] call that threw,
    the evaluation reads the cached updates and makes exactly one
    security-update request; it is of severity WARNING, and its context
    lists the first five security updates of the cached list (by their
    [to_string()]) and, when fewer than [security_updates] were listed, a
    line "... and N more" with N the difference. Otherwise (no alert
    manager, [security_updates <= 0], an earlier call or
    [get_cached_updates()] throwing) it makes none. *)
Theorem check_thresholds_security (has_alert_manager : bool)
  (config : ThresholdConfig) (cached_updates : outcome (list AptUpdate))
  (disk_env mem_env sec_env : SubmitEnv) (snapshot : HealthSnapshot)
  (ms : MonState) :
  let res := check_thresholds has_alert_manager config cached_updates
               disk_env mem_env sec_env snapshot ([], ms) in
  let reqs := fst (fst res) in
  let sec := security_updates snapshot in
  let disk_pct := (disk_usage_percent snapshot / 100)%Q in
  let mem_pct := (memory_usage_percent snapshot / 100)%Q in
  let disk_called := Qle_bool (disk_crit_threshold config) disk_pct
                     || Qle_bool (disk_warn_threshold config) disk_pct in
  let mem_called := Qle_bool (mem_crit_threshold config) mem_pct
                    || Qle_bool (mem_warn_threshold config) mem_pct in
  let earlier_passed := (negb disk_called || outcome_ok (se_create disk_env))
                        && (negb mem_called || outcome_ok (se_create mem_env)) in
  filter (fun r => alert_type_eqb (ar_type r) SECURITY_UPDATE) reqs
  = (if has_alert_manager && earlier_passed && (0 <? sec)%Z
     then match cached_updates with
          | Ok updates => [security_request snapshot updates]
          | Throws _ => []
          end
     else [])
  /\ (forall updates : list AptUpdate,
        let listed := listed_updates updates in
        ar_severity (security_request snapshot updates) = WARNING
        /\ ar_context (security_request snapshot updates)
           = Z_to_string sec ++ " security updates available:" ++ nl
             ++ concat_strings (map update_line listed)
             ++ (if (Z.of_nat (length listed) <? sec)%Z
                 then "... and " ++ Z_to_string (sec - Z.of_nat (length listed))
                      ++ " more" ++ nl
                 else "")).
Proof.
  intros res reqs sec disk_pct mem_pct disk_called mem_called earlier_passed.
  split.
  - subst reqs res earlier_passed disk_called mem_called disk_pct mem_pct sec.
    unfold check_thresholds, function_body, bind, early_return, ret.
    destruct has_alert_manager; thr_crunch; cbn;
    rewrite ?(proj2 (security_request_kind _ _)); reflexivity.
  - intros updates listed.
    split; [exact (proj1 (security_request_kind snapshot updates))|].
    unfold security_request, listed_updates in *. subst listed.
    rewrite (security_lines_spec updates 0 "") by lia.
    change (Z.to_nat (5 - 0)) with 5%nat. rewrite Z.add_0_l.
    cbn [ar_context].
    destruct (_ <? _)%Z; [reflexivity|].
    rewrite string_append_empty. reflexivity.
Qed.

(** ** [Request::parse] *)

(** C8 fails as stated: a numeric id is rendered after conversion to
    [int], so the id 4294967297 becomes "1" and the id 1.5 becomes "1",
    not their decimal renderings. *)
Lemma Request_parse_numeric_id :
  Request_parse (Some (JObject [("method", JString "status");
                                ("id", JInt 4294967297)]))
  = Some {| req_method := "status"; req_params := JObject [];
            req_id := Some "1" |}
  /\ Z_to_string 4294967297 = "4294967297"
  /\ Request_parse (Some (JObject [("method", JString "status");
                                   ("id", JFloat (3 # 2))]))
     = Some {| req_method := "status"; req_params := JObject [];
               req_id := Some "1" |}.
Proof. split; [|split]; reflexivity. Qed.

(** C8 (as corrected): [Request::parse] yields nothing exactly when
    [json::parse] fails or the value has no string "method" field (in
    particular when it is not an object); otherwise the request has that
    method, the supplied "params" value (of any JSON type) or the empty
    object, and as id the supplied string, or [std::to_string] of the
    supplied number converted to [int] (integers wrapped modulo 2^32,
    fractional values in the [int] range truncated toward zero), or
    nothing when the id is absent or neither a string nor a number. *)
Theorem Request_parse_spec (raw : option json) :
  match raw with
  | None => Request_parse raw = None
  | Some j =>
      match json_field j "method" with
      | Some (JString m) =>
          exists req,
            Request_parse raw = Some req
            /\ req_method req = m
            /\ req_params req = match json_field j "params" with
                                | Some p => p
                                | None => JObject []
                                end
            /\ id_matches (json_field j "id") (req_id req)
      | _ => Request_parse raw = None
      end
  end.
Proof.
  destruct raw as [j|]; [|reflexivity].
  unfold Request_parse.
  destruct (json_field j "method") as [[| | | | |m| |]|]; try reflexivity.
  eexists. split; [reflexivity|]. cbn. split; [reflexivity|]. split; [reflexivity|].
  unfold id_matches.
  destruct (json_field j "id") as [[| | | | | | |]|]; cbn; auto.
Qed.

(** ** [RateLimiter] *)

Lemma rate_limiter_allow_bound (now : Z) (rl : RateLimiter.t) :
  (RateLimiter.count_in_window rl <= RateLimiter.limit rl)%nat ->
  (RateLimiter.count_in_window (fst (RateLimiter.allow now rl))
   <= RateLimiter.limit (fst (RateLimiter.allow now rl)))%nat
  /\ RateLimiter.limit (fst (RateLimiter.allow now rl)) = RateLimiter.limit rl.
Proof.
  unfold RateLimiter.allow. intros H.
  destruct (RateLimiter.WINDOW_SIZE_MS <=? now - RateLimiter.window_start rl)%Z;
    cbn [RateLimiter.count_in_window RateLimiter.limit RateLimiter.window_start];
    match goal with |- context [(?a <? ?b)%nat] => destruct (Nat.ltb_spec a b) end;
    cbn; split; lia.
Qed.

Lemma rate_limiter_run_bound (ops : list RateLimiter.op) :
  forall rl, (RateLimiter.count_in_window rl <= RateLimiter.limit rl)%nat ->
  (RateLimiter.count_in_window (fst (RateLimiter.run rl ops))
   <= RateLimiter.limit (fst (RateLimiter.run rl ops)))%nat.
Proof.
  induction ops as [|[now|now] rest IH]; intros rl H; cbn [RateLimiter.run].
  - exact H.
  - destruct (rate_limiter_allow_bound now rl H) as [H1 _].
    destruct (RateLimiter.allow now rl) as [rl' b].
    specialize (IH rl' H1). destruct (RateLimiter.run rl' rest) as [rl'' bs].
    exact IH.
  - apply IH. cbn. lia.
Qed.

(** C9: a limiter of limit 3 answers true, true, true, false to four
    calls within its first window; a call that finds the window fully
    elapsed starts a new window at its own time and is admitted; and
    along any sequence of calls the count in the window never exceeds
    the limit. *)
Theorem rate_limiter_spec :
  (forall (t0 t1 t2 t3 t4 : Z),
     (t0 <= t1 <= t2)%Z -> (t2 <= t3 <= t4)%Z -> (t4 < t0 + 1000)%Z ->
     snd (RateLimiter.run (RateLimiter.create 3 t0)
            [RateLimiter.Allow t1; RateLimiter.Allow t2;
             RateLimiter.Allow t3; RateLimiter.Allow t4])
     = [true; true; true; false])
  /\ (forall (now : Z) (rl : RateLimiter.t),
        RateLimiter.limit rl = 3%nat ->
        (RateLimiter.WINDOW_SIZE_MS <= now - RateLimiter.window_start rl)%Z ->
        RateLimiter.allow now rl
        = ({| RateLimiter.limit := 3; RateLimiter.window_start := now;
              RateLimiter.count_in_window := 1 |}, true))
  /\ (forall (lim : nat) (t0 : Z) (ops : list RateLimiter.op),
        (RateLimiter.count_in_window
           (fst (RateLimiter.run (RateLimiter.create lim t0) ops))
         <= RateLimiter.limit
              (fst (RateLimiter.run (RateLimiter.create lim t0) ops)))%nat).
Proof.
  split; [|split].
  - intros t0 t1 t2 t3 t4 H1 H2 H3.
    unfold RateLimiter.run, RateLimiter.allow, RateLimiter.create.
    cbn [RateLimiter.window_start RateLimiter.count_in_window RateLimiter.limit].
    unfold RateLimiter.WINDOW_SIZE_MS.
    repeat (simpl; match goal with
                   | |- context [(1000 <=? ?x)%Z] =>
                       let E := fresh in
                       destruct (Z.leb_spec 1000 x) as [E|E]; [exfalso; lia|]
                   end).
    reflexivity.
  - intros now rl Hl Hw. unfold RateLimiter.allow.
    apply Z.leb_le in Hw. rewrite Hw. cbn. rewrite Hl. reflexivity.
  - intros lim t0 ops. apply rate_limiter_run_bound. cbn. lia.
Qed.

Lemma rate_limiter_spec_witness :
  snd (RateLimiter.run (RateLimiter.create 3 0)
         [RateLimiter.Allow 0; RateLimiter.Allow 100;
          RateLimiter.Allow 500; RateLimiter.Allow 999])
  = [true; true; true; false]
  /\ RateLimiter.allow 1100
       {| RateLimiter.limit := 3; RateLimiter.window_start := 0;
          RateLimiter.count_in_window := 3 |}
     = ({| RateLimiter.limit := 3; RateLimiter.window_start := 1100;
           RateLimiter.count_in_window := 1 |}, true).
Proof.
  split.
  - apply (proj1 rate_limiter_spec 0%Z 0%Z 100%Z 500%Z 999%Z); lia.
  - apply (proj1 (proj2 rate_limiter_spec) 1100%Z); [reflexivity|].
    unfold RateLimiter.WINDOW_SIZE_MS; cbn; lia.
Defined.

(** ** Enum conversions, [expand_path], protocol values, LLM client set-up *)

(** [to_string] and the [*_from_string] functions are inverse: every
    severity and every alert type is read back from its name. *)
Theorem enum_string_round_trip :
  (forall s : AlertSeverity, severity_from_string (AlertSeverity_to_string s) = s) /\
  (forall t : AlertType, alert_type_from_string (AlertType_to_string t) = t).
Proof. split; intros []; reflexivity. Qed.

(** A string that is not the name of any severity reads as [INFO], one
    that is not the name of any alert type reads as [SYSTEM]
    (comparison is case-sensitive). *)
Theorem enum_from_string_fallback (s : string) :
  ((forall v, AlertSeverity_to_string v <> s) -> severity_from_string s = INFO) /\
  ((forall v, AlertType_to_string v <> s) -> alert_type_from_string s = SYSTEM).
Proof.
  split; intros H; unfold severity_from_string, alert_type_from_string;
  repeat match goal with
         | |- context [String.eqb s ?k] =>
             destruct (String.eqb_spec s k) as [E|_];
             [subst; exfalso;
              first [ exact (H INFO eq_refl) | exact (H WARNING eq_refl)
                    | exact (H ERROR eq_refl) | exact (H CRITICAL eq_refl)
                    | exact (H SYSTEM eq_refl) | exact (H APT_UPDATES eq_refl)
                    | exact (H SECURITY_UPDATE eq_refl) | exact (H DISK_USAGE eq_refl)
                    | exact (H MEMORY_USAGE eq_refl) | exact (H CVE_FOUND eq_refl)
                    | exact (H DEPENDENCY eq_refl) | exact (H LLM_ERROR eq_refl)
                    | exact (H DAEMON_STATUS eq_refl) | exact (H AI_ANALYSIS eq_refl) ] |]
         end; reflexivity.
Qed.

Lemma enum_from_string_fallback_witness :
  (forall v, AlertSeverity_to_string v <> "CRITICAL") /\
  severity_from_string "CRITICAL" = INFO /\
  (forall v, AlertType_to_string v <> "Disk_Usage") /\
  alert_type_from_string "Disk_Usage" = SYSTEM.
Proof.
  assert (Hs : forall v, AlertSeverity_to_string v <> "CRITICAL")
    by (intros []; discriminate).
  assert (Ht : forall v, AlertType_to_string v <> "Disk_Usage")
    by (intros []; discriminate).
  split; [exact Hs|]. split; [exact (proj1 (enum_from_string_fallback "CRITICAL") Hs)|].
  split; [exact Ht|]. exact (proj2 (enum_from_string_fallback "Disk_Usage") Ht).
Defined.

(** [expand_path] changes a path only when it begins with [~] and HOME
    is set, and then the result is HOME followed by the rest of the path
    (a [~user] prefix is not special). *)
Theorem expand_path_changes_only_tilde (home : option string) (path : string) :
  expand_path home path <> path ->
  exists h rest, home = Some h /\ path = String tilde rest /\
                 expand_path home path = h ++ rest.
Proof.
  unfold expand_path. destruct path as [|c rest]; [congruence|].
  destruct (Ascii.eqb_spec c tilde) as [->|Hc]; simpl; [|congruence].
  destruct home as [h|]; [|congruence].
  intros _. exists h, rest. auto.
Qed.

Lemma expand_path_changes_only_tilde_witness :
  expand_path (Some "/home/op") "~/x" <> "~/x" /\
  exists h rest, Some "/home/op" = Some h /\ "~/x" = String tilde rest /\
                 expand_path (Some "/home/op") "~/x" = h ++ rest.
Proof.
  assert (H : expand_path (Some "/home/op") "~/x" <> "~/x")
    by (vm_compute; discriminate).
  split; [exact H|]. exact (expand_path_changes_only_tilde _ _ H).
Defined.

(** When HOME is a non-empty value that does not begin with [~],
    expanding twice is the same as expanding once, and a [~] path no
    longer begins with [~] once expanded. *)
Theorem expand_path_idempotent (c : Ascii.ascii) (hrest path : string) :
  c <> tilde ->
  let home := Some (String c hrest) in
  expand_path home (expand_path home path) = expand_path home path /\
  (forall rest, path = String tilde rest ->
                forall rest', expand_path home path <> String tilde rest').
Proof.
  intros Hc home. subst home. destruct path as [|c0 rest]; [split; [reflexivity|discriminate]|].
  unfold expand_path at 2 4.
  destruct (Ascii.eqb_spec c0 tilde) as [->|Hc0]; simpl.
  - split.
    + unfold expand_path. destruct (Ascii.eqb_spec c tilde); [contradiction|reflexivity].
    + intros r _ r' E. injection E as E _. contradiction.
  - split.
    + unfold expand_path. destruct (Ascii.eqb_spec c0 tilde); [contradiction|reflexivity].
    + intros r E. injection E as E _. contradiction.
Qed.

Lemma expand_path_idempotent_witness :
  Ascii.ascii_of_nat 47 <> tilde /\
  expand_path (Some (String (Ascii.ascii_of_nat 47) "root"))
    (expand_path (Some (String (Ascii.ascii_of_nat 47) "root")) "~/.cortex")
  = expand_path (Some (String (Ascii.ascii_of_nat 47) "root")) "~/.cortex".
Proof.
  assert (H : Ascii.ascii_of_nat 47 <> tilde) by (vm_compute; discriminate).
  split; [exact H|]. exact (proj1 (expand_path_idempotent _ "root" "~/.cortex" H)).
Defined.

(** A serialised response carries [result] exactly when it is a success
    and [error] exactly when it is not; the json of [Response::ok] and
    [Response::err] depends only on their arguments, never on the
    default-constructed fields. *)
Theorem Response_to_json_shape (now : Z) (r : Response) :
  json_field (Response_to_json now r) "success" = Some (JBool (resp_success r)) /\
  (json_field (Response_to_json now r) "result" <> None <-> resp_success r = true) /\
  (json_field (Response_to_json now r) "error" <> None <-> resp_success r = false) /\
  (forall d1 d2 v, Response_to_json now (Response_ok d1 v)
                   = Response_to_json now (Response_ok d2 v)) /\
  (forall d1 d2 msg code, Response_to_json now (Response_err d1 msg code)
                          = Response_to_json now (Response_err d2 msg code)).
Proof.
  destruct r as [[] res err code]; cbn;
    (split; [reflexivity|]); (split; [split; intros H; congruence|]);
    (split; [split; intros H; congruence|]); split; reflexivity.
Qed.

(** [initialize_http_llm_client] configures the client only when AI
    alerts are enabled and the backend is one of [local] (with the
    configured URL and no key), [cloud_claude] or [cloud_openai] (with no
    URL and a non-empty key); [none], the empty name and unknown names
    leave the client unconfigured. *)
Theorem initialize_http_llm_client_configures (config : LLMConfig)
  (getenv : string -> option string) bt url key :
  initialize_http_llm_client config getenv = Some (bt, url, key) ->
  cfg_enable_ai_alerts config = true /\
  ((cfg_llm_backend config = "local" /\ bt = LOCAL /\
    url = cfg_llm_api_url config /\ key = "") \/
   (cfg_llm_backend config = "cloud_claude" /\ bt = CLOUD_CLAUDE /\
    url = "" /\ key <> "") \/
   (cfg_llm_backend config = "cloud_openai" /\ bt = CLOUD_OPENAI /\
    url = "" /\ key <> "")).
Proof.
  unfold initialize_http_llm_client.
  destruct (cfg_enable_ai_alerts config); [|discriminate]. intros H. split; [reflexivity|].
  destruct (String.eqb_spec (cfg_llm_backend config) "local") as [El|_].
  { injection H as <- <- <-. left. auto. }
  destruct (String.eqb_spec (cfg_llm_backend config) "cloud_claude") as [Ec|_].
  { destruct (String.eqb_spec (cloud_api_key getenv (cfg_llm_api_key_env config)
                                 "ANTHROPIC_API_KEY") "") as [|Hk]; [discriminate|].
    injection H as <- <- <-. right; left. auto. }
  destruct (String.eqb_spec (cfg_llm_backend config) "cloud_openai") as [Eo|_].
  { destruct (String.eqb_spec (cloud_api_key getenv (cfg_llm_api_key_env config)
                                 "OPENAI_API_KEY") "") as [|Hk]; [discriminate|].
    injection H as <- <- <-. right; right. auto. }
  destruct (String.eqb _ "none" || String.eqb _ ""); discriminate.
Qed.

Lemma initialize_http_llm_client_configures_witness :
  initialize_http_llm_client
    {| cfg_enable_ai_alerts := true; cfg_llm_backend := "local";
       cfg_llm_api_url := "http://127.0.0.1:8085"; cfg_llm_api_key_env := "" |}
    (fun _ => None) = Some (LOCAL, "http://127.0.0.1:8085", "") /\
  cfg_enable_ai_alerts
    {| cfg_enable_ai_alerts := true; cfg_llm_backend := "local";
       cfg_llm_api_url := "http://127.0.0.1:8085"; cfg_llm_api_key_env := "" |} = true.
Proof.
  assert (H : initialize_http_llm_client
    {| cfg_enable_ai_alerts := true; cfg_llm_backend := "local";
       cfg_llm_api_url := "http://127.0.0.1:8085"; cfg_llm_api_key_env := "" |}
    (fun _ => None) = Some (LOCAL, "http://127.0.0.1:8085", "")) by reflexivity.
  split; [exact H|]. exact (proj1 (initialize_http_llm_client_configures _ _ _ _ _ H)).
Defined.

(** For a cloud backend the variable named by [llm_api_key_env] wins
    when it holds a non-empty key, whatever [ANTHROPIC_API_KEY] or
    [OPENAI_API_KEY] hold; otherwise the key is read from that default
    variable, and without a non-empty key the client is not
    configured. *)
Theorem initialize_http_llm_client_cloud_key (config : LLMConfig)
  (getenv : string -> option string) backend bt default_env :
  cfg_enable_ai_alerts config = true ->
  cfg_llm_backend config = backend ->
  In (backend, bt, default_env)
     [("cloud_claude", CLOUD_CLAUDE, "ANTHROPIC_API_KEY");
      ("cloud_openai", CLOUD_OPENAI, "OPENAI_API_KEY")] ->
  (forall k, cfg_llm_api_key_env config <> "" ->
             getenv (cfg_llm_api_key_env config) = Some k -> k <> "" ->
             initialize_http_llm_client config getenv = Some (bt, "", k)) /\
  ((cfg_llm_api_key_env config = "" \/
    getenv (cfg_llm_api_key_env config) = None \/
    getenv (cfg_llm_api_key_env config) = Some "") ->
   initialize_http_llm_client config getenv =
     match getenv default_env with
     | Some k => if String.eqb k "" then None else Some (bt, "", k)
     | None => None
     end).
Proof.
  intros Hen Hb Hin.
  assert (Hsel : forall key_env,
    initialize_http_llm_client config getenv =
      (let api_key := cloud_api_key getenv key_env default_env in
       if String.eqb api_key "" then None else Some (bt, "", api_key))
    \/ key_env <> cfg_llm_api_key_env config).
  { intros key_env. destruct (String.eqb_spec key_env (cfg_llm_api_key_env config))
      as [->|]; [left|right; assumption].
    unfold initialize_http_llm_client. rewrite Hen, Hb. cbn [negb].
    destruct Hin as [E|[E|[]]]; injection E as <- <- <-; reflexivity. }
  destruct (Hsel (cfg_llm_api_key_env config)) as [Hi|]; [|congruence].
  rewrite Hi. unfold cloud_api_key. split.
  - intros k Hne Hg Hk.
    destruct (String.eqb_spec (cfg_llm_api_key_env config) "") as [|_]; [contradiction|].
    cbn [negb]. rewrite Hg.
    destruct (String.eqb_spec k "") as [|_]; [contradiction|].
    destruct (String.eqb_spec k "") as [|_]; [contradiction|]. reflexivity.
  - intros Hnone.
    assert (Hapi : (if negb (String.eqb (cfg_llm_api_key_env config) "")
                    then match getenv (cfg_llm_api_key_env config) with
                         | Some key => key | None => "" end
                    else "") = "").
    { destruct (String.eqb_spec (cfg_llm_api_key_env config) "") as [|Hne]; [reflexivity|].
      cbn [negb]. destruct Hnone as [|[Hg|Hg]]; [contradiction| rewrite Hg; reflexivity
                                              | rewrite Hg; reflexivity]. }
    cbv zeta. rewrite Hapi. cbn [String.eqb].
    destruct (getenv default_env) as [k|]; reflexivity.
Qed.

Lemma initialize_http_llm_client_cloud_key_witness :
  initialize_http_llm_client
    {| cfg_enable_ai_alerts := true; cfg_llm_backend := "cloud_claude";
       cfg_llm_api_url := ""; cfg_llm_api_key_env := "CORTEX_KEY" |}
    (fun v => if String.eqb v "CORTEX_KEY" then Some "k1" else Some "k2")
  = Some (CLOUD_CLAUDE, "", "k1").
Proof.
  refine (proj1 (initialize_http_llm_client_cloud_key
    {| cfg_enable_ai_alerts := true; cfg_llm_backend := "cloud_claude";
       cfg_llm_api_url := ""; cfg_llm_api_key_env := "CORTEX_KEY" |}
    (fun v => if String.eqb v "CORTEX_KEY" then Some "k1" else Some "k2")
    "cloud_claude" CLOUD_CLAUDE "ANTHROPIC_API_KEY" eq_refl eq_refl
    (or_introl eq_refl)) "k1" _ eq_refl _); discriminate.
Defined.

(** ** IPC handlers *)

Lemma wrap32_small (z : Z) : (0 <= z < 2 ^ 31)%Z -> wrap32 z = z.
Proof.
  intros H. unfold wrap32. rewrite Z.mod_small by lia.
  destruct (Z.leb_spec (2 ^ 31) z); lia.
Qed.

(** [GET alerts]: the list comes from the severity filter when one is
    given, else from the type filter, else from the active alerts; a
    non-negative [limit] (100 by default) keeps its first [limit]
    entries and [count] is the number returned. *)
Theorem handle_alerts_filter_limit (INTERNAL_ERROR : Z) (dflt : Response)
  (a : AlertsEnv) (req : Request) (sev ty : string) (limit : Z) :
  param_or req "severity" json_get_string "" = Ok sev ->
  param_or req "type" json_get_string "" = Ok ty ->
  param_or req "limit" json_get_int_checked 100%Z = Ok limit ->
  (0 <= limit)%Z ->
  let l := if negb (String.eqb sev "")
           then ae_by_severity a (severity_from_string sev)
           else if negb (String.eqb ty "")
           then ae_by_type a (alert_type_from_string ty)
           else ae_active a in
  (Z.of_nat (length l) < 2 ^ 31)%Z ->
  handle_alerts INTERNAL_ERROR dflt (Some a) req =
    Ok (Response_ok dflt
          (JObject [("alerts", JArray (firstn (Z.to_nat limit) l));
                    ("count", JUInt (Z.of_nat (Nat.min (Z.to_nat limit) (length l))));
                    ("total_active", ae_total_active a)])).
Proof.
  intros Hs Ht Hl Hpos l Hlen. unfold handle_alerts.
  rewrite Hs, Ht, Hl. cbn [obind]. fold l.
  rewrite wrap32_small by lia.
  destruct (Z.ltb_spec limit (Z.of_nat (length l))) as [Hlt|Hge].
  - destruct (Z.ltb_spec limit 0) as [|_]; [lia|]. cbn [obind].
    rewrite length_firstn. reflexivity.
  - cbn [obind]. rewrite firstn_all2 by lia.
    replace (Nat.min (Z.to_nat limit) (length l)) with (length l) by lia.
    reflexivity.
Qed.

Lemma handle_alerts_filter_limit_witness :
  let a := {| ae_by_severity := fun _ => []; ae_by_type := fun _ => [];
              ae_active := [JString "a1"; JString "a2"; JString "a3"];
              ae_total_active := JInt 3; ae_acknowledge := fun _ => false;
              ae_acknowledge_all := 0; ae_dismiss := fun _ => false |} in
  let req := {| req_method := "alerts";
                req_params := JObject [("limit", JInt 2)]; req_id := None |} in
  handle_alerts (-32603) {| resp_success := false; resp_result := JNull;
                            resp_error := ""; resp_error_code := 0 |} (Some a) req
  = Ok (Response_ok {| resp_success := false; resp_result := JNull;
                       resp_error := ""; resp_error_code := 0 |}
          (JObject [("alerts", JArray [JString "a1"; JString "a2"]);
                    ("count", JUInt 2); ("total_active", JInt 3)])).
Proof.
  intros a req.
  exact (handle_alerts_filter_limit (-32603) _ a req "" "" 2 eq_refl eq_refl eq_refl
           ltac:(lia) ltac:(vm_compute; reflexivity)).
Defined.

(** [GET alerts] with a negative [limit] throws [std::length_error]
    (the [resize] to the limit converted to [size_t]), however few
    alerts there are, even none. *)
Theorem handle_alerts_negative_limit (INTERNAL_ERROR : Z) (dflt : Response)
  (a : AlertsEnv) (req : Request) (sev ty : string) (limit : Z) :
  param_or req "severity" json_get_string "" = Ok sev ->
  param_or req "type" json_get_string "" = Ok ty ->
  param_or req "limit" json_get_int_checked 100%Z = Ok limit ->
  (limit < 0)%Z ->
  let l := if negb (String.eqb sev "")
           then ae_by_severity a (severity_from_string sev)
           else if negb (String.eqb ty "")
           then ae_by_type a (alert_type_from_string ty)
           else ae_active a in
  (Z.of_nat (length l) < 2 ^ 31)%Z ->
  handle_alerts INTERNAL_ERROR dflt (Some a) req = Throws length_error.
Proof.
  intros Hs Ht Hl Hneg l Hlen. unfold handle_alerts.
  rewrite Hs, Ht, Hl. cbn [obind]. fold l.
  rewrite wrap32_small by lia.
  destruct (Z.ltb_spec limit (Z.of_nat (length l))) as [_|]; [|lia].
  destruct (Z.ltb_spec limit 0) as [_|]; [reflexivity|lia].
Qed.

Lemma handle_alerts_negative_limit_witness :
  let a := {| ae_by_severity := fun _ => []; ae_by_type := fun _ => [];
              ae_active := []; ae_total_active := JInt 0;
              ae_acknowledge := fun _ => false; ae_acknowledge_all := 0;
              ae_dismiss := fun _ => false |} in
  let req := {| req_method := "alerts";
                req_params := JObject [("limit", JInt (-1))]; req_id := None |} in
  handle_alerts (-32603) {| resp_success := false; resp_result := JNull;
                            resp_error := ""; resp_error_code := 0 |} (Some a) req
  = Throws length_error.
Proof.
  intros a req.
  exact (handle_alerts_negative_limit (-32603) _ a req "" "" (-1) eq_refl eq_refl
           eq_refl ltac:(lia) ltac:(vm_compute; reflexivity)).
Defined.

(** [alerts.acknowledge]: a string [id] acknowledges exactly that alert
    (an unknown one gives ALERT_NOT_FOUND); a non-string [id] throws
    before any call; [acknowledge_all()] is only called when there is no
    [id] and [all] is [true]; with neither, or [all] false, the answer is
    INVALID_PARAMS with no call. *)
Theorem handle_alerts_ack_dispatch (INVALID_PARAMS INTERNAL_ERROR ALERT_NOT_FOUND : Z)
  (dflt : Response) (a : AlertsEnv) (req : Request) :
  let r := handle_alerts_ack INVALID_PARAMS INTERNAL_ERROR ALERT_NOT_FOUND dflt
             (Some a) req in
  (forall id, json_field (req_params req) "id" = Some (JString id) ->
     r = ([CallAcknowledge id],
          Ok (if ae_acknowledge a id
              then Response_ok dflt (JObject [("acknowledged", JString id)])
              else Response_err dflt "Alert not found" ALERT_NOT_FOUND))) /\
  (forall v, json_field (req_params req) "id" = Some v ->
     (forall s, v <> JString s) -> r = ([], Throws json_type_error)) /\
  (In CallAcknowledgeAll (fst r) ->
     json_field (req_params req) "id" = None /\
     json_field (req_params req) "all" = Some (JBool true)) /\
  (json_field (req_params req) "id" = None ->
   (json_field (req_params req) "all" = None \/
    json_field (req_params req) "all" = Some (JBool false)) ->
   r = ([], Ok (Response_err dflt "Missing 'id' or 'all' parameter" INVALID_PARAMS))).
Proof.
  intros r. subst r. unfold handle_alerts_ack.
  split; [|split; [|split]].
  - intros id ->. reflexivity.
  - intros v -> Hv. destruct v; try reflexivity. exfalso; exact (Hv s eq_refl).
  - destruct (json_field (req_params req) "id") as [v|].
    + destruct (json_get_string v); simpl; intuition discriminate.
    + destruct (json_field (req_params req) "all") as [w|]; [|simpl; tauto].
      destruct w; simpl; try tauto.
      destruct b; simpl; tauto.
  - intros -> [-> | ->]; reflexivity.
Qed.

(** [alerts.dismiss]: without [id] the answer is INVALID_PARAMS and
    nothing is dismissed; a string [id] dismisses exactly that alert (an
    unknown one gives ALERT_NOT_FOUND); a non-string [id] throws before
    any call. *)
Theorem handle_alerts_dismiss_dispatch (INVALID_PARAMS INTERNAL_ERROR ALERT_NOT_FOUND : Z)
  (dflt : Response) (a : AlertsEnv) (req : Request) :
  let r := handle_alerts_dismiss INVALID_PARAMS INTERNAL_ERROR ALERT_NOT_FOUND dflt
             (Some a) req in
  (json_field (req_params req) "id" = None ->
     r = ([], Ok (Response_err dflt "Missing 'id' parameter" INVALID_PARAMS))) /\
  (forall id, json_field (req_params req) "id" = Some (JString id) ->
     r = ([CallDismiss id],
          Ok (if ae_dismiss a id
              then Response_ok dflt (JObject [("dismissed", JString id)])
              else Response_err dflt "Alert not found" ALERT_NOT_FOUND))) /\
  (forall v, json_field (req_params req) "id" = Some v ->
     (forall s, v <> JString s) -> r = ([], Throws json_type_error)).
Proof.
  intros r. subst r. unfold handle_alerts_dismiss.
  split; [|split].
  - intros ->. reflexivity.
  - intros id ->. reflexivity.
  - intros v -> Hv. destruct v; try reflexivity. exfalso; exact (Hv s eq_refl).
Qed.

Lemma handle_health_nonepoch (dflt : Response) (env : CheckEnv)
  (alerts : option (Z * Z)) (s : CheckState) :
  timestamp (cs_snapshot s) <> 0%Z ->
  handle_health dflt env alerts s =
    (s, Normal (Response_ok dflt
                  (HealthSnapshot_to_json (override_alert_counts alerts (cs_snapshot s))))).
Proof.
  intros H. unfold handle_health, get_snapshot, bind, ret. cbn beta iota.
  destruct (Z.eqb_spec (timestamp (cs_snapshot s)) 0); [contradiction|reflexivity].
Qed.

Lemma run_checks_sets_timestamp (env : CheckEnv) (s : CheckState) m d :
  ce_mem env = Ok m -> ce_disk env = Ok d ->
  (ce_enable_apt_monitor env = false \/ ce_apt_check env = Ok tt) ->
  timestamp (cs_snapshot (fst (run_checks env s))) = ce_now env.
Proof.
  intros Em Ed Hapt.
  destruct (cpu_block_shape env s) as [Hs1 [Hc1 [q Hq]]].
  unfold run_checks, try_catch_std, bind, of_outcome, ret, throw.
  rewrite Em, Ed; cbn -[cpu_block apt_block].
  destruct (cpu_block env s) as [s1 r1]; cbn in Hs1, Hc1, Hq; subst r1.
  destruct (apt_block_normal env s1 Hapt) as [p [sec Ha]].
  destruct (apt_block env s1) as [s2 r2]; cbn in Ha; subst r2.
  unfold set_snapshot, evaluate_copy.
  destruct (ce_alert_counts env) as [[[a|[w|]] [c|[w'|]]]|]; cbn;
    destruct (ce_thresholds env) as [|[]]; cbn; reflexivity.
Qed.

(** [health] answers from the published snapshot, without running a
    check, whenever that snapshot has a non-epoch timestamp; the alert
    counts come from the alert manager when there is one. *)
Theorem handle_health_uses_snapshot (dflt : Response) (env : CheckEnv)
  (alerts : option (Z * Z)) (s : CheckState) :
  timestamp (cs_snapshot s) <> 0%Z ->
  handle_health dflt env alerts s =
    (s, Normal (Response_ok dflt
                  (HealthSnapshot_to_json (override_alert_counts alerts (cs_snapshot s))))).
Proof. exact (handle_health_nonepoch dflt env alerts s). Qed.

Lemma handle_health_uses_snapshot_witness :
  let snap := {| timestamp := 1700000000; cpu_usage_percent := 10;
                 memory_usage_percent := 20; memory_used_mb := 800;
                 memory_total_mb := 4000; disk_usage_percent := 30;
                 disk_used_gb := 30; disk_total_gb := 100; pending_updates := 0;
                 security_updates := 0; active_alerts := 0; critical_alerts := 0 |} in
  let s := {| cs_snapshot := snap; cs_prev_cpu := zero_counters;
              cs_cpu_initialized := true; cs_apt_counter := 1; cs_evaluated := [] |} in
  let env := {| ce_mem := Throws OtherException; ce_disk := Throws OtherException;
                ce_cpu_read1 := None; ce_cpu_lock := Ok tt; ce_cpu_read2 := None;
                ce_enable_apt_monitor := false; ce_apt_check := Ok tt;
                ce_apt_pending := 0; ce_apt_security := 0; ce_now := 0;
                ce_alert_counts := None; ce_thresholds := Ok tt |} in
  let dflt := {| resp_success := false; resp_result := JNull;
                 resp_error := ""; resp_error_code := 0 |} in
  handle_health dflt env (Some (2%Z, 1%Z)) s =
    (s, Normal (Response_ok dflt
                  (HealthSnapshot_to_json (override_alert_counts (Some (2%Z, 1%Z)) snap)))).
Proof.
  intros snap s env dflt.
  exact (handle_health_uses_snapshot dflt env (Some (2%Z, 1%Z)) s ltac:(discriminate)).
Defined.

(** On a monitor that has never published a snapshot (epoch timestamp),
    [health] runs one check through [force_check()]; when the memory and
    disk collectors and the apt step succeed and the clock is not at the
    epoch, the published snapshot then carries the check time, so the
    next [health] request answers from it without another check. *)
Theorem handle_health_forces_check_once (dflt : Response) (env : CheckEnv)
  (alerts : option (Z * Z)) (s : CheckState) m d :
  timestamp (cs_snapshot s) = 0%Z ->
  ce_mem env = Ok m -> ce_disk env = Ok d ->
  (ce_enable_apt_monitor env = false \/ ce_apt_check env = Ok tt) ->
  ce_now env <> 0%Z ->
  let s' := fst (handle_health dflt env alerts s) in
  s' = fst (run_checks env s) /\
  timestamp (cs_snapshot s') = ce_now env /\
  (forall env' alerts',
     handle_health dflt env' alerts' s' =
       (s', Normal (Response_ok dflt
                      (HealthSnapshot_to_json
                         (override_alert_counts alerts' (cs_snapshot s')))))).
Proof.
  intros H0 Em Ed Hapt Hnow s'.
  assert (Hs' : s' = fst (run_checks env s)).
  { subst s'. unfold handle_health, get_snapshot, force_check, bind, ret.
    cbn beta iota. rewrite H0. cbn.
    destruct (run_checks env s) as [s1 [[]| |e]]; reflexivity. }
  assert (Ht : timestamp (cs_snapshot s') = ce_now env).
  { rewrite Hs'. exact (run_checks_sets_timestamp env s m d Em Ed Hapt). }
  split; [exact Hs'|]. split; [exact Ht|].
  intros env' alerts'. apply handle_health_nonepoch. rewrite Ht. exact Hnow.
Qed.

(** ** AI threads, the monitor loop, the apt cadence *)

Lemma cleanupFinishedAIThreads_filter (l : list AIThreadEntry) :
  cleanupFinishedAIThreads l
    = filter (fun e => negb (th_done e) && th_joinable e) l.
Proof.
  induction l as [|e rest IH]; [reflexivity|]. simpl.
  destruct (th_done e), (th_joinable e); simpl; rewrite ?IH; reflexivity.
Qed.

(** [cleanupFinishedAIThreads] keeps, in their order, exactly the entries
    whose thread is joinable and has not signalled completion; sweeping
    twice is the same as sweeping once. *)
Theorem cleanupFinishedAIThreads_keeps_running (l : list AIThreadEntry) :
  cleanupFinishedAIThreads l
    = filter (fun e => negb (th_done e) && th_joinable e) l /\
  (forall e, In e (cleanupFinishedAIThreads l) <->
             In e l /\ th_done e = false /\ th_joinable e = true) /\
  cleanupFinishedAIThreads (cleanupFinishedAIThreads l) = cleanupFinishedAIThreads l.
Proof.
  split; [apply cleanupFinishedAIThreads_filter|]. split.
  - intros e. rewrite cleanupFinishedAIThreads_filter, filter_In.
    destruct (th_done e), (th_joinable e); simpl; intuition congruence.
  - induction l as [|e rest IH]; [reflexivity|]. simpl.
    destruct (th_done e) eqn:Hd; [exact IH|].
    destruct (th_joinable e) eqn:Hj; simpl; [|exact IH].
    rewrite Hd, Hj. simpl. rewrite IH. reflexivity.
Qed.

Lemma generate_ai_alert_cases (env : TaskEnv) (t : AlertType) (ctx : string)
  (s : TaskState) :
  let prompt := ctx ++ nl ++ nl ++ prompt_suffix t in
  let s1 := {| ts_done := ts_done s;
               ts_events := (ts_events s ++ [EvLLMGenerate prompt])%list |} in
  (negb (te_enable_ai_alerts env) || negb (te_client_present env)
   || negb (te_client_configured env) = true /\
   generate_ai_alert env t ctx s = (s, Normal "")) \/
  (negb (te_enable_ai_alerts env) || negb (te_client_present env)
   || negb (te_client_configured env) = false /\
   match te_generate env with
   | Ok (success, output, _) =>
       generate_ai_alert env t ctx s
       = (s1, Normal (if success && negb (String.eqb output "") then output else ""))
   | Throws e => generate_ai_alert env t ctx s = (s1, Raise e)
   end).
Proof.
  intros prompt s1. unfold generate_ai_alert.
  destruct (negb (te_enable_ai_alerts env) || negb (te_client_present env)
            || negb (te_client_configured env)); [left; split; reflexivity|right].
  split; [reflexivity|].
  unfold bind, emit, of_outcome, ret, throw.
  destruct (te_generate env) as [[[success output] err]|e]; [|reflexivity].
  destruct (success && negb (String.eqb output "")); reflexivity.
Qed.



(** [generate_ai_alert] makes no LLM call when AI alerts are disabled or
    the client is missing or unconfigured (it answers [""]); a non-empty
    answer is exactly the output of an LLM call that reported success. *)
Theorem generate_ai_alert_contract (env : TaskEnv) (t : AlertType)
  (context : string) (s : TaskState) :
  let '(s', r) := generate_ai_alert env t context s in
  ((te_enable_ai_alerts env = false \/ te_client_present env = false \/
    te_client_configured env = false) -> s' = s /\ r = Normal "") /\
  (forall out, r = Normal out -> out <> "" ->
     exists err, te_generate env = Ok (true, out, err) /\
       ts_events s' = (ts_events s ++
                       [EvLLMGenerate (context ++ nl ++ nl ++ prompt_suffix t)])%list).
Proof.
  destruct (generate_ai_alert_cases env t context s) as [[Hc Hg]|[Hc Hg]].
  - rewrite Hg. split; [intros _; split; reflexivity|].
    intros out E Hne. injection E as <-. contradiction.
  - assert (Hen : ~ (te_enable_ai_alerts env = false \/ te_client_present env = false \/
                     te_client_configured env = false)).
    { destruct (te_enable_ai_alerts env), (te_client_present env),
        (te_client_configured env); cbn in Hc; try discriminate; intuition discriminate. }
    destruct (te_generate env) as [[[success output] err]|e] eqn:Hgen; rewrite Hg.
    + split; [intros H; contradiction|].
      intros out E Hne. destruct (success && negb (String.eqb output "")) eqn:Ho.
      * apply andb_true_iff in Ho as [Hs _]. subst success. injection E as <-.
        exists err. split; reflexivity.
      * injection E as <-. contradiction.
    + split; [intros H; contradiction|intros out E; discriminate].
Qed.

(** An AI thread that finds the monitor running and the alert store
    alive creates exactly one secondary alert, of severity INFO and type
    AI_ANALYSIS, titled after the parent and whose metadata links the
    parent id, marks it AI-enhanced and keeps the context, after at most
    one LLM call; when that LLM call throws, no secondary alert is
    created. *)
Theorem ai_thread_one_analysis_alert (env : TaskEnv) (type : AlertType)
  (ai_context title alert_id : string) (s : TaskState) :
  te_running env = true -> te_store_alive env = true ->
  let s' := fst (ai_thread env type ai_context title alert_id s) in
  ((forall e, te_generate env <> Throws e) ->
   exists pre msg meta,
     ts_events s' = ((ts_events s ++ pre)
                     ++ [EvStoreCreate INFO AI_ANALYSIS ("AI analysis: " ++ title)
                           msg meta])%list /\
     (pre = [] \/ exists p, pre = [EvLLMGenerate p]) /\
     metadata_find "parent_alert_id" meta = Some alert_id /\
     metadata_find "ai_enhanced" meta = Some "true" /\
     metadata_find "analysis_context" meta = Some ai_context) /\
  (forall e, te_generate env = Throws e ->
   te_enable_ai_alerts env = true -> te_client_present env = true ->
   te_client_configured env = true ->
   ts_events s' = (ts_events s ++
                   [EvLLMGenerate (ai_context ++ nl ++ nl ++ prompt_suffix type)])%list).
Proof.
  intros Hr Ha s'. subst s'.
  unfold ai_thread, with_scope_guard, try_catch_all, ai_task_body.
  rewrite Hr, Ha. cbn [negb].
  unfold bind at 1.
  destruct (generate_ai_alert_cases env type ai_context s) as [[Hc Hg]|[Hc Hg]].
  - rewrite Hg. split.
    + intros _.
      unfold task_store_create, bind, emit, of_outcome, ret, throw.
      destruct (String.eqb_spec "" "") as [_|]; [|congruence]. cbn [negb].
      destruct (te_create env); cbn [fst set_done ts_events];
        eexists [], _, _; rewrite app_nil_r; (split; [reflexivity|]);
        (split; [left; reflexivity|]); repeat split.
    + intros e _ He Hp Hcf. rewrite He, Hp, Hcf in Hc. discriminate.
  - destruct (te_generate env) as [[[success output] err]|e] eqn:Hgen.
    + rewrite Hg. split; [|intros e He; discriminate].
      intros _.
      unfold task_store_create, bind, emit, of_outcome, ret, throw.
      destruct (success && negb (String.eqb output "")) eqn:Ho.
      * apply andb_true_iff in Ho as [_ Ho].
        rewrite Ho. cbn [negb].
        destruct (te_create env); cbn [fst set_done ts_events];
          eexists [_], _, _; (split; [reflexivity|]);
          (split; [right; eexists; reflexivity|]); repeat split.
      * destruct (String.eqb_spec "" "") as [_|]; [|congruence]. cbn [negb].
        destruct (te_create env); cbn [fst set_done ts_events];
          eexists [_], _, _; (split; [reflexivity|]);
          (split; [right; eexists; reflexivity|]); repeat split.
    + rewrite Hg. split; [intros H; exfalso; exact (H e eq_refl)|].
      intros e' _ _ _ _. unfold bind. rewrite Hg. reflexivity.
Qed.

(** Without [trigger_check()], and with the interval fixed at [I], the
    loop runs at most [(B - last) / I] checks after the one at [last]
    when every wake-up happens by time [B]: checks are never closer
    together than the interval. *)
Theorem monitor_loop_check_rate (last B I : Z) (ticks : list LoopTick) :
  (forall t, In t ticks ->
     lt_check_requested t = false /\ lt_interval t = I /\ (lt_now t <= B)%Z) ->
  (last <= B)%Z ->
  (I * Z.of_nat (count_checks (monitor_loop_iter last ticks)) <= B - last)%Z.
Proof.
  revert last. induction ticks as [|t rest IH]; intros last Hall Hlast.
  - cbn. lia.
  - destruct (Hall t (or_introl eq_refl)) as [Hreq [HI Hnow]].
    assert (Hrest : forall t', In t' rest ->
              lt_check_requested t' = false /\ lt_interval t' = I /\ (lt_now t' <= B)%Z)
      by (intros t' H; apply Hall; right; exact H).
    cbn [monitor_loop_iter]. destruct (lt_running t); cbn [negb]; [|cbn; lia].
    rewrite Hreq, HI, orb_false_r.
    destruct (Z.leb_spec I (lt_now t - last)) as [Hle|Hgt].
    + unfold count_checks. cbn [filter is_run_checks length].
      fold (count_checks (monitor_loop_iter (lt_now t) rest)).
      specialize (IH (lt_now t) Hrest Hnow). lia.
    + unfold count_checks. cbn [filter is_run_checks].
      fold (count_checks (monitor_loop_iter last rest)).
      exact (IH last Hrest Hlast).
Qed.

Lemma monitor_loop_check_rate_witness :
  let ticks := map (fun n => {| lt_running := true; lt_now := Z.of_nat n;
                                lt_interval := 5; lt_check_requested := false |})
                   (seq 1 20) in
  (5 * Z.of_nat (count_checks (monitor_loop_iter 0 ticks)) <= 20 - 0)%Z.
Proof.
  intros ticks.
  apply (monitor_loop_check_rate 0 20 5 ticks); [|lia].
  intros t Ht. subst ticks. apply in_map_iff in Ht as [n [<- Hn]].
  apply in_seq in Hn. cbn. repeat split. lia.
Defined.

(** [apt_counter_] advances by one, with the [int] wrap-around from
    INT_MAX to INT_MIN, on every check that gets past the memory and disk
    collectors when the apt monitor is enabled (whatever
    [check_updates()] does), and stays put when it is disabled; the
    answer of [check_updates()] matters only on the cycles where the
    counter is a multiple of 5. *)
Theorem run_checks_apt_cadence (env : CheckEnv) (apt_check : outcome unit)
  (s : CheckState) :
  let env' := {| ce_mem := ce_mem env; ce_disk := ce_disk env;
                 ce_cpu_read1 := ce_cpu_read1 env; ce_cpu_lock := ce_cpu_lock env;
                 ce_cpu_read2 := ce_cpu_read2 env;
                 ce_enable_apt_monitor := ce_enable_apt_monitor env;
                 ce_apt_check := apt_check; ce_apt_pending := ce_apt_pending env;
                 ce_apt_security := ce_apt_security env; ce_now := ce_now env;
                 ce_alert_counts := ce_alert_counts env;
                 ce_thresholds := ce_thresholds env |} in
  ((cs_apt_counter s mod 5 <> 0)%Z -> run_checks env' s = run_checks env s) /\
  (forall m d, ce_mem env = Ok m -> ce_disk env = Ok d ->
     cs_apt_counter (fst (run_checks env s))
     = if ce_enable_apt_monitor env then wrap32 (cs_apt_counter s + 1)
       else cs_apt_counter s).
Proof.
  intros env'. split.
  - intros Hmod.
    destruct (cpu_block_shape env s) as [_ [Hc1 [q Hq]]].
    assert (Hcpu : cpu_block env' = cpu_block env) by reflexivity.
    assert (Hapt : forall s1, cs_apt_counter s1 = cs_apt_counter s ->
                   apt_block env' s1 = apt_block env s1).
    { intros s1 Hs1. unfold apt_block, bind, apt_fetch_add, ret.
      subst env'. cbn [ce_enable_apt_monitor ce_apt_check ce_apt_pending ce_apt_security].
      destruct (ce_enable_apt_monitor env); [|reflexivity].
      rewrite Hs1. destruct (Z.eqb_spec (cs_apt_counter s mod 5) 0); [contradiction|].
      reflexivity. }
    unfold run_checks, try_catch_std, bind. rewrite Hcpu.
    change (ce_mem env') with (ce_mem env). change (ce_disk env') with (ce_disk env).
    destruct (ce_mem env) as [m|e]; cbn [of_outcome ret throw]; [|reflexivity].
    destruct (ce_disk env) as [d|e]; cbn [of_outcome ret throw]; [|reflexivity].
    destruct (cpu_block env s) as [s1 r1]; cbn in Hc1, Hq; subst r1.
    rewrite (Hapt s1 Hc1). reflexivity.
  - intros m d Em Ed.
    destruct (cpu_block_shape env s) as [_ [Hc1 [q Hq]]].
    unfold run_checks, try_catch_std, bind, of_outcome, ret, throw.
    rewrite Em, Ed; cbn -[cpu_block apt_block].
    destruct (cpu_block env s) as [s1 r1]; cbn in Hc1, Hq; subst r1.
    unfold apt_block, bind, apt_fetch_add, of_outcome, ret, throw.
    destruct (ce_enable_apt_monitor env); cbn -[Z.modulo].
    + destruct (cs_apt_counter s1 mod 5 =? 0)%Z; cbn -[Z.modulo];
        [destruct (ce_apt_check env) as [[]|[]]; cbn -[Z.modulo]|];
        try (rewrite Hc1; reflexivity);
        unfold set_snapshot, evaluate_copy;
        destruct (ce_alert_counts env) as [[[a|[w|]] [c|[w'|]]]|]; cbn;
        destruct (ce_thresholds env) as [|[]]; cbn; rewrite Hc1; reflexivity.
    + unfold set_snapshot, evaluate_copy;
        destruct (ce_alert_counts env) as [[[a|[w|]] [c|[w'|]]]|]; cbn;
        destruct (ce_thresholds env) as [|[]]; cbn; rewrite Hc1; reflexivity.
Qed.

Lemma check_rate_limit_no_reset_bound (rl : InferenceQueue.rate_limiter)
  (nows : list Z) :
  (0 <= InferenceQueue.requests_in_window rl)%Z ->
  (forall t, In t nows -> (t - InferenceQueue.last_reset rl < InferenceQueue.WINDOW_SIZE_MS)%Z) ->
  (Z.of_nat (InferenceQueue.admitted (snd (InferenceQueue.run rl nows)))
   + InferenceQueue.requests_in_window rl
   <= Z.max InferenceQueue.MAX_REQUESTS_PER_SECOND (InferenceQueue.requests_in_window rl))%Z.
Proof.
  revert rl. induction nows as [|t rest IH]; intros rl Hc Hin.
  - cbn. lia.
  - assert (Ht := Hin t (or_introl eq_refl)).
    assert (Hrest : forall t', In t' rest ->
              (t' - InferenceQueue.last_reset rl < InferenceQueue.WINDOW_SIZE_MS)%Z)
      by (intros t' H; apply Hin; right; exact H).
    cbn [InferenceQueue.run]. unfold InferenceQueue.check_rate_limit.
    destruct (Z.leb_spec InferenceQueue.WINDOW_SIZE_MS (t - InferenceQueue.last_reset rl));
      [lia|].
    destruct (Z.ltb_spec (InferenceQueue.requests_in_window rl)
                InferenceQueue.MAX_REQUESTS_PER_SECOND) as [Hlt|Hge].
    + specialize (IH {| InferenceQueue.requests_in_window :=
                          InferenceQueue.requests_in_window rl + 1;
                        InferenceQueue.last_reset := InferenceQueue.last_reset rl |}).
      cbn [InferenceQueue.requests_in_window InferenceQueue.last_reset] in IH.
      destruct (InferenceQueue.run _ rest) as [rl2 bs].
      unfold InferenceQueue.admitted in *. cbn [snd filter length] in *.
      specialize (IH ltac:(lia) Hrest). unfold InferenceQueue.MAX_REQUESTS_PER_SECOND in *.
      lia.
    + specialize (IH rl Hc Hrest).
      destruct (InferenceQueue.run rl rest) as [rl2 bs].
      unfold InferenceQueue.admitted in *. cbn [snd filter] in *. exact IH.
Qed.

Lemma check_rate_limit_burst (c T : Z) (n : nat) :
  (0 <= c)%Z -> (c + Z.of_nat n <= InferenceQueue.MAX_REQUESTS_PER_SECOND)%Z ->
  InferenceQueue.admitted
    (snd (InferenceQueue.run {| InferenceQueue.requests_in_window := c;
                                InferenceQueue.last_reset := T |} (repeat T n))) = n.
Proof.
  revert c. induction n as [|n IH]; intros c Hc Hn; [reflexivity|].
  cbn [repeat InferenceQueue.run]. unfold InferenceQueue.check_rate_limit.
  cbn [InferenceQueue.requests_in_window InferenceQueue.last_reset].
  rewrite Z.sub_diag.
  destruct (Z.leb_spec InferenceQueue.WINDOW_SIZE_MS 0) as [H|_];
    [unfold InferenceQueue.WINDOW_SIZE_MS in H; lia|].
  destruct (Z.ltb_spec c InferenceQueue.MAX_REQUESTS_PER_SECOND) as [_|H]; [|lia].
  specialize (IH (c + 1)%Z ltac:(lia) ltac:(lia)).
  destruct (InferenceQueue.run _ (repeat T n)) as [rl2 bs].
  unfold InferenceQueue.admitted in *. cbn [snd filter length] in *. lia.
Qed.

(** [InferenceQueue::check_rate_limit] admits up to 101 calls, not 100,
    within one window: the call that opens a new window is admitted
    without being counted, and the next 100 calls before the window
    ends are admitted too; the bound is reached. *)
Theorem check_rate_limit_window_admits_101 (rl : InferenceQueue.rate_limiter)
  (T : Z) :
  (InferenceQueue.WINDOW_SIZE_MS <= T - InferenceQueue.last_reset rl)%Z ->
  (forall nows, (forall t, In t nows -> (t - T < InferenceQueue.WINDOW_SIZE_MS)%Z) ->
     (InferenceQueue.admitted (snd (InferenceQueue.run rl (T :: nows))) <= 101)%nat) /\
  (exists nows, (forall t, In t nows -> T <= t < T + InferenceQueue.WINDOW_SIZE_MS)%Z /\
     InferenceQueue.admitted (snd (InferenceQueue.run rl (T :: nows))) = 101%nat).
Proof.
  intros Hw.
  assert (Hfirst : forall nows,
    InferenceQueue.admitted (snd (InferenceQueue.run rl (T :: nows)))
    = S (InferenceQueue.admitted
           (snd (InferenceQueue.run {| InferenceQueue.requests_in_window := 0;
                                       InferenceQueue.last_reset := T |} nows)))).
  { intros nows. cbn [InferenceQueue.run]. unfold InferenceQueue.check_rate_limit at 1.
    destruct (Z.leb_spec InferenceQueue.WINDOW_SIZE_MS (T - InferenceQueue.last_reset rl));
      [|lia].
    destruct (InferenceQueue.run _ nows) as [rl2 bs]. reflexivity. }
  split.
  - intros nows Hin. rewrite Hfirst.
    pose proof (check_rate_limit_no_reset_bound
                  {| InferenceQueue.requests_in_window := 0;
                     InferenceQueue.last_reset := T |} nows ltac:(cbn; lia) Hin) as H.
    cbn [InferenceQueue.requests_in_window] in H.
    unfold InferenceQueue.MAX_REQUESTS_PER_SECOND in H. lia.
  - exists (repeat T 100). split.
    + intros t Ht. apply repeat_spec in Ht. subst t.
      unfold InferenceQueue.WINDOW_SIZE_MS. lia.
    + rewrite Hfirst, check_rate_limit_burst; [reflexivity| lia |].
      unfold InferenceQueue.MAX_REQUESTS_PER_SECOND. lia.
Qed.

Lemma check_rate_limit_window_admits_101_witness :
  (InferenceQueue.WINDOW_SIZE_MS
     <= 5000 - InferenceQueue.last_reset
                 {| InferenceQueue.requests_in_window := 100;
                    InferenceQueue.last_reset := 0 |})%Z /\
  exists nows, (forall t, In t nows -> 5000 <= t < 5000 + InferenceQueue.WINDOW_SIZE_MS)%Z /\
     InferenceQueue.admitted
       (snd (InferenceQueue.run {| InferenceQueue.requests_in_window := 100;
                                   InferenceQueue.last_reset := 0 |} (5000%Z :: nows)))
     = 101%nat.
Proof.
  assert (H : (InferenceQueue.WINDOW_SIZE_MS
     <= 5000 - InferenceQueue.last_reset
                 {| InferenceQueue.requests_in_window := 100;
                    InferenceQueue.last_reset := 0 |})%Z)
    by (unfold InferenceQueue.WINDOW_SIZE_MS; cbn; lia).
  split; [exact H|].
  exact (proj2 (check_rate_limit_window_admits_101 _ 5000%Z H)).
Defined.

Lemma handle_health_forces_check_once_witness :
  let snap0 := {| timestamp := 0; cpu_usage_percent := 0;
                  memory_usage_percent := 0; memory_used_mb := 0;
                  memory_total_mb := 0; disk_usage_percent := 0;
                  disk_used_gb := 0; disk_total_gb := 0; pending_updates := 0;
                  security_updates := 0; active_alerts := 0; critical_alerts := 0 |} in
  let s := {| cs_snapshot := snap0; cs_prev_cpu := zero_counters;
              cs_cpu_initialized := false; cs_apt_counter := 0; cs_evaluated := [] |} in
  let m := {| mem_usage_percent := 40; mem_used_mb := 1600; mem_total_mb := 4000 |} in
  let d := {| disk_usage_pct := 50; disk_used := 50; disk_total := 100 |} in
  let env := {| ce_mem := Ok m; ce_disk := Ok d; ce_cpu_read1 := None;
                ce_cpu_lock := Ok tt; ce_cpu_read2 := None;
                ce_enable_apt_monitor := false; ce_apt_check := Ok tt;
                ce_apt_pending := 0; ce_apt_security := 0; ce_now := 1700000000;
                ce_alert_counts := None; ce_thresholds := Ok tt |} in
  let dflt := {| resp_success := false; resp_result := JNull;
                 resp_error := ""; resp_error_code := 0 |} in
  timestamp (cs_snapshot (fst (handle_health dflt env None s))) = 1700000000%Z.
Proof.
  intros snap0 s m d env dflt.
  exact (proj1 (proj2 (handle_health_forces_check_once dflt env None s m d
                         eq_refl eq_refl eq_refl (or_introl eq_refl)
                         ltac:(discriminate)))).
Defined.

Lemma ai_thread_one_analysis_alert_witness :
  let env := {| te_running := true; te_store_alive := true;
                te_enable_ai_alerts := true; te_client_present := true;
                te_client_configured := true;
                te_generate := Ok (true, "Run apt-get clean.", "");
                te_create := Ok "b1c2" |} in
  exists pre msg meta,
    ts_events (fst (ai_thread env DISK_USAGE "Disk usage: 91%" "High disk usage"
                      "a1b2c3d4e5" {| ts_done := false; ts_events := [] |}))
    = (([] ++ pre) ++ [EvStoreCreate INFO AI_ANALYSIS
                         ("AI analysis: " ++ "High disk usage") msg meta])%list /\
    (pre = [] \/ exists p, pre = [EvLLMGenerate p]) /\
    metadata_find "parent_alert_id" meta = Some "a1b2c3d4e5" /\
    metadata_find "ai_enhanced" meta = Some "true" /\
    metadata_find "analysis_context" meta = Some "Disk usage: 91%".
Proof.
  intros env.
  exact (proj1 (ai_thread_one_analysis_alert env DISK_USAGE "Disk usage: 91%"
                  "High disk usage" "a1b2c3d4e5" {| ts_done := false; ts_events := [] |}
                  eq_refl eq_refl) (fun e => ltac:(discriminate))).
Defined.
